(** * FreshBites synthetic supply-chain data generator

    A shallow embedding of [Dataset/Dataset.py] (class
    [FreshBitesDataGenerator]) and the properties of its tables.

    Conventions of the embedding:
    - Python [int] values are [Z]; Python/NumPy floats are exact rationals
      [Q] (the rounding error of double arithmetic is not modelled);
    - [np.random.random()] reads the next element of a stream
      [rng : nat -> Q] of variates in the half-open interval [0, 1); the
      generator state is the number of variates consumed so far;
    - [np.pi] and [np.sin] are parameters of the forecast generator;
    - a [KeyError] / [IndexError] is an explicit [Raise] result;
    - a pandas data frame is the list of its rows, in order.

    Embedded: the forecast, actuals, supplier and deliveries generators
    and the baseline calculator.  The inventory and capacity generators,
    the CSV output and the plots are left out; the generator properties
    are stated from an arbitrary generator state, so they hold wherever
    the draws of the omitted generators fall in the stream. *)

From Stdlib Require Import ZArith QArith Qabs Qround List String Bool Lia Lqa.
From Stdlib Require Import Sorted.
Import ListNotations.

Open Scope Z_scope.

(** ** Numbers *)

(** Python's [int(x)] on a float: truncation toward zero. *)
Definition int (x : Q) : Z := Z.quot (Qnum x) (Zpos (Qden x)).

(** Python's [max(a, b)]: the first argument unless the second is larger. *)
Definition py_max (a b : Q) : Q := if Qle_bool b a then a else b.

(** [a < b] on floats, and the truth value of an integer. *)
Definition Qlt_bool (a b : Q) : bool := negb (Qle_bool b a).
Definition truthy (z : Z) : bool := negb (z =? 0).

(** Python's [range(a, b)]. *)
Definition range (a b : Z) : list Z :=
  map (fun i => a + Z.of_nat i) (seq 0 (Z.to_nat (b - a))).

(** [x in xs] for a list of integers. *)
Definition in_list (x : Z) (xs : list Z) : bool := existsb (Z.eqb x) xs.

(** A double that may have left the finite range: the quotient of a NumPy
    scalar division is [inf] or [nan] when the divisor is zero (the
    warning is silenced by [warnings.filterwarnings('ignore')]). *)
Inductive npfloat : Type :=
| Fin (q : Q)
| Inf
| NaN.

(** [x / d] for a non-negative float [x] and an integer scalar [d]. *)
Definition np_div (x : Q) (d : Z) : npfloat :=
  if d =? 0 then (if Qle_bool x 0 then NaN else Inf)
  else Fin (x / inject_Z d).

Definition is_finite (v : npfloat) : bool :=
  match v with Fin _ => true | _ => false end.

(** ** Results and the generator monad *)

Inductive exn : Type := KeyError | IndexError.

Inductive res (A : Type) : Type :=
| Ok (a : A)
| Raise (e : exn).
Arguments Ok {A} a.
Arguments Raise {A} e.

Definition bindR {A B} (m : res A) (k : A -> res B) : res B :=
  match m with
  | Ok a => k a
  | Raise e => Raise e
  end.

(** A [for] loop over [xs] threading the loop-carried value [acc]. *)
Fixpoint foldR {X B} (f : B -> X -> res B) (xs : list X) (acc : B) : res B :=
  match xs with
  | [] => Ok acc
  | x :: xs' => bindR (f acc x) (foldR f xs')
  end.

(** Computations that read the random stream and may raise. *)
Definition M (A : Type) : Type := nat -> res (A * nat).

Definition ret {A} (a : A) : M A := fun s => Ok (a, s).

Definition bind {A B} (m : M A) (k : A -> M B) : M B :=
  fun s => match m s with
           | Ok (a, s') => k a s'
           | Raise e => Raise e
           end.

Definition lift {A} (r : res A) : M A :=
  fun s => match r with Ok a => Ok (a, s) | Raise e => Raise e end.

Declare Scope gen_scope.
Delimit Scope gen_scope with gen.
Notation "x <- m ;; k" := (bind m (fun x => k))
  (at level 61, m at next level, right associativity) : gen_scope.
Notation "x <-? m ;; k" := (bindR m (fun x => k))
  (at level 61, m at next level, right associativity) : gen_scope.
Open Scope gen_scope.

Fixpoint foldM {X B} (f : B -> X -> M B) (xs : list X) (acc : B) : M B :=
  match xs with
  | [] => ret acc
  | x :: xs' => acc' <- f acc x ;; foldM f xs' acc'
  end.

(** ** Configuration ([__init__]) *)

Definition skus : list string :=
  ["SKU001_Snacks"; "SKU002_Beverages"; "SKU003_Cheese"; "SKU004_Bakery";
   "SKU005_Frozen"]%string.
Definition dcs : list string := ["Mumbai"; "Kolkata"]%string.
Definition suppliers : list string :=
  ["SUP001"; "SUP002"; "SUP003"; "SUP004"; "SUP005"]%string.
Definition weeks : Z := 104.
Definition festival_weeks : list Z :=
  [8; 16; 24; 32; 40; 48; 56; 64; 72; 80; 88; 96].
Definition sku_multipliers : list (string * Q) :=
  [("SKU001_Snacks"%string, 1.2%Q); ("SKU002_Beverages"%string, 1.0%Q);
   ("SKU003_Cheese"%string, 0.8%Q); ("SKU004_Bakery"%string, 1.1%Q);
   ("SKU005_Frozen"%string, 0.9%Q)].

(** [d[k]] on a dict: [KeyError] when the key is absent. *)
Fixpoint dict_get {V} (d : list (string * V)) (k : string) : res V :=
  match d with
  | [] => Raise KeyError
  | (k', v) :: d' => if String.eqb k k' then Ok v else dict_get d' k
  end.

(** [xs[i]] on a list: [IndexError] when out of range. *)
Definition list_get {V} (xs : list V) (i : nat) : res V :=
  match nth_error xs i with
  | Some v => Ok v
  | None => Raise IndexError
  end.

(** ** Rows of the tables *)

Record forecast_row : Type := mk_forecast {
  f_week : Z; f_sku : string; f_dc : string;
  forecast_qty : Z; festival_flag : Z }.

Record actual_row : Type := mk_actual {
  a_week : Z; a_sku : string; a_dc : string; actual_qty : Z }.

Record supplier_row : Type := mk_supplier {
  supplier_id : string; s_sku : string;
  avg_lead_time_wk : Q; lead_time_std : Q; on_time_prob : Q }.

Record delivery_row : Type := mk_delivery {
  week_release : Z; week_arrival : Z; d_sku : string; qty : Z;
  d_supplier_id : string }.

Record baseline_row : Type := mk_baseline {
  b_week : Z; b_sku : string; b_dc : string;
  naive_forecast : Z; festival_adjusted_forecast : Z; actual : Z }.

Record performance_row : Type := mk_performance {
  p_week : Z; p_sku : string; p_dc : string;
  naive_mape : npfloat; festival_mape : npfloat; is_festival : bool }.

(** The (week, sku, dc) key of a row. *)
Definition key : Type := Z * string * string.
Definition key_eqb (k1 k2 : key) : bool :=
  let '(w1, s1, d1) := k1 in
  let '(w2, s2, d2) := k2 in
  (w1 =? w2) && String.eqb s1 s2 && String.eqb d1 d2.
Definition f_key (r : forecast_row) : key := (f_week r, f_sku r, f_dc r).
Definition a_key (r : actual_row) : key := (a_week r, a_sku r, a_dc r).
Definition b_key (r : baseline_row) : key := (b_week r, b_sku r, b_dc r).
Definition p_key (r : performance_row) : key := (p_week r, p_sku r, p_dc r).

(** ** The generators *)

Section Generators.

(** The stream behind [np.random.random()]. *)
Variable rng : nat -> Q.

Definition random : M Q := fun s => Ok (rng s, S s).

Section Forecast.

Variable np_pi : Q.
Variable np_sin : Q -> Q.

Definition generate_base_demand (week : Z) (sku : string) : M Q :=
  let seasonality :=
    (1 + 0.3 * np_sin ((inject_Z week * 2 * np_pi) / 52))%Q in
  let weekly_pattern :=
    (1 + 0.1 * np_sin ((inject_Z week * 2 * np_pi) / 4))%Q in
  m <- lift (dict_get sku_multipliers sku) ;;
  let base_demand := (500 * m * seasonality * weekly_pattern)%Q in
  r <- random ;;
  let noise := ((r - 0.5) * 100)%Q in
  ret (py_max 50 (base_demand + noise)).

Definition generate_forecast_data : M (list forecast_row) :=
  foldM (fun data week =>
    foldM (fun data sku =>
      foldM (fun data dc =>
        base_demand <- generate_base_demand week sku ;;
        let is_festival := in_list week festival_weeks in
        festival_uplift <-
          (if is_festival
           then r <- random ;; ret (0.4 + r * 0.1)%Q
           else ret 0%Q) ;;
        let forecast_qty := int (base_demand * (1 + festival_uplift)) in
        ret (data ++ [mk_forecast week sku dc forecast_qty
                        (if is_festival then 1 else 0)]))
      dcs data)
    skus data)
  (range 1 (weeks + 1)) [].

End Forecast.

Definition generate_actuals_data (forecast_df : list forecast_row)
  : M (list actual_row) :=
  foldM (fun actuals row =>
    let variance := if truthy (festival_flag row) then 0.3%Q else 0.15%Q in
    r <- random ;;
    let noise := ((r - 0.5) * 2 * variance)%Q in
    let actual_qty :=
      int (py_max 0 (inject_Z (forecast_qty row) * (1 + noise))) in
    actual_qty <-
      (if String.eqb (f_dc row) "Mumbai"
       then r <- random ;;
            ret (int (inject_Z actual_qty * (0.95 + r * 0.1)))
       else r <- random ;;
            ret (int (inject_Z actual_qty * (1.0 + r * 0.05)))) ;;
    ret (actuals ++ [mk_actual (f_week row) (f_sku row) (f_dc row)
                       actual_qty]))
  forecast_df [].

Definition generate_suppliers_data : M (list supplier_row) :=
  foldM (fun data '(i, supplier_id) =>
    sku <- lift (list_get skus i) ;;
    r1 <- random ;;
    r2 <- random ;;
    r3 <- random ;;
    ret (data ++ [mk_supplier supplier_id sku
                    (2 + r1 * 3) (0.5 + r2 * 1) (0.7 + r3 * 0.25)]))
  (combine (seq 0 (List.length suppliers)) suppliers) [].

Definition generate_deliveries_data (suppliers_df : list supplier_row)
  : M (list delivery_row) :=
  foldM (fun data week =>
    foldM (fun data supplier =>
      r <- random ;;
      if Qlt_bool r 0.6 then
        r <- random ;;
        let lead_time :=
          Z.max 1 (int (avg_lead_time_wk supplier
                        + (r - 0.5) * lead_time_std supplier * 2)) in
        let arrival_week := week + lead_time in
        if arrival_week <=? weeks then
          r <- random ;;
          ret (data ++ [mk_delivery week arrival_week (s_sku supplier)
                          (int (200 + r * 800)) (supplier_id supplier)])
        else ret data
      else ret data)
    suppliers_df data)
  (range 1 (weeks - 5)) [].

End Generators.

(** ** Baseline forecast and its accuracy *)

(** [Series.mean()] of an integer column. *)
Definition sum (xs : list Z) : Z := fold_right Z.add 0 xs.
Definition mean (xs : list Z) : Q :=
  (inject_Z (sum xs) / inject_Z (Z.of_nat (List.length xs)))%Q.

(** [.iloc[0]]: [IndexError] on an empty selection. *)
Definition iloc0 {V} (xs : list V) : res V :=
  match xs with
  | [] => Raise IndexError
  | x :: _ => Ok x
  end.

(** The [actual_qty] column of the rows selected by a boolean mask. *)
Definition select_qty (mask : actual_row -> bool) (actuals_df : list actual_row)
  : list Z :=
  map actual_qty (filter mask actuals_df).

Definition prior_mask (week : Z) (sku dc : string) (r : actual_row) : bool :=
  (week - 4 <=? a_week r) && (a_week r <? week)
  && String.eqb (a_sku r) sku && String.eqb (a_dc r) dc.

Definition current_mask (week : Z) (sku dc : string) (r : actual_row) : bool :=
  (a_week r =? week) && String.eqb (a_sku r) sku && String.eqb (a_dc r) dc.

Definition tables : Type := (list baseline_row * list performance_row)%type.

(** The body of the innermost loop of [calculate_baseline_forecast]. *)
Definition baseline_body (actuals_df : list actual_row) (week : Z)
  (sku : string) (acc : tables) (dc : string) : res tables :=
  let '(baseline_data, performance_data) := acc in
  let last_four := select_qty (prior_mask week sku dc) actuals_df in
  if 4 <=? Z.of_nat (List.length last_four) then
    let naive_baseline := mean last_four in
    let is_festival := in_list week festival_weeks in
    let festival_adjusted :=
      (naive_baseline * (if is_festival then 1.45 else 1))%Q in
    actual_value <-?
      iloc0 (select_qty (current_mask week sku dc) actuals_df) ;;
    let baseline_data :=
      baseline_data ++ [mk_baseline week sku dc (int naive_baseline)
                          (int festival_adjusted) actual_value] in
    let naive_mape :=
      np_div (Qabs (inject_Z actual_value - naive_baseline)) actual_value in
    let festival_mape :=
      np_div (Qabs (inject_Z actual_value - festival_adjusted))
        actual_value in
    Ok (baseline_data,
        performance_data ++ [mk_performance week sku dc naive_mape
                               festival_mape is_festival])
  else Ok (baseline_data, performance_data).

Definition calculate_baseline_forecast (actuals_df : list actual_row)
  : res tables :=
  foldR (fun acc week =>
    foldR (fun acc sku =>
      foldR (baseline_body actuals_df week sku) dcs acc)
    skus acc)
  (range 5 (weeks + 1)) ([], []).

(** Python's [round] on a float (ties to even), used to read the worked
    example of the specification. *)
Definition py_round (x : Q) : Z :=
  let f := Qfloor x in
  let d := (x - inject_Z f)%Q in
  match (d ?= 1 # 2)%Q with
  | Lt => f
  | Gt => f + 1
  | Eq => if Z.even f then f else f + 1
  end.

(** ** Row-level reading of the calculator *)

(** The (week, sku, dc) triples in the order the three loops visit them. *)
Definition triples : list key :=
  flat_map (fun w => flat_map (fun s => map (fun d => (w, s, d)) dcs) skus)
    (range 5 (weeks + 1)).

Definition last_four (adf : list actual_row) (k : key) : list Z :=
  let '(w, s, d) := k in select_qty (prior_mask w s d) adf.

Definition current (adf : list actual_row) (k : key) : list Z :=
  let '(w, s, d) := k in select_qty (current_mask w s d) adf.

(** The unrounded forecasts of a triple. *)
Definition naive_baseline (adf : list actual_row) (k : key) : Q :=
  mean (last_four adf k).

Definition festival_adjusted (adf : list actual_row) (k : key) : Q :=
  (naive_baseline adf k
   * (if in_list (fst (fst k)) festival_weeks then 1.45 else 1))%Q.

Definition baseline_of (adf : list actual_row) (k : key) (a : Z)
  : baseline_row :=
  let '(w, s, d) := k in
  mk_baseline w s d (int (naive_baseline adf k))
    (int (festival_adjusted adf k)) a.

Definition performance_of (adf : list actual_row) (k : key) (a : Z)
  : performance_row :=
  let '(w, s, d) := k in
  mk_performance w s d
    (np_div (Qabs (inject_Z a - naive_baseline adf k)) a)
    (np_div (Qabs (inject_Z a - festival_adjusted adf k)) a)
    (in_list w festival_weeks).

(** A triple is reported when four or more prior observations exist. *)
Definition enough (adf : list actual_row) (k : key) : bool :=
  4 <=? Z.of_nat (List.length (last_four adf k)).

(** The rows one iteration of the innermost loop contributes. *)
Definition rows_of (adf : list actual_row) (k : key) : tables :=
  if enough adf k then
    match current adf k with
    | a :: _ => ([baseline_of adf k a], [performance_of adf k a])
    | [] => ([], [])
    end
  else ([], []).


(** The number of actual observations of a (sku, dc) pair in the weeks
    [lo .. hi]. *)
Definition observations (adf : list actual_row) (lo hi : Z) (sku dc : string)
  : nat :=
  List.length
    (filter (fun r => (lo <=? a_week r) && (a_week r <=? hi)
                      && String.eqb (a_sku r) sku && String.eqb (a_dc r) dc)
       adf).

(** ** Sample inputs *)

(** A weekly history of one (sku, dc) pair from week [from] to the end of
    the horizon. *)
Definition history (sku dc : string) (from : Z) (q : Z -> Z)
  : list actual_row :=
  map (fun w => mk_actual w sku dc (q w)) (range from (weeks + 1)).

(** The worked example: 480, 510, 495, 505 in weeks 4 to 7. *)
Definition example_qty (w : Z) : Z :=
  if w =? 4 then 480 else if w =? 5 then 510 else if w =? 6 then 495
  else if w =? 7 then 505 else 700.

Definition example_actuals : list actual_row :=
  history "SKU001_Snacks" "Mumbai" 4 example_qty.

Definition example_tables : tables :=
  Eval vm_compute in
    match calculate_baseline_forecast example_actuals with
    | Ok t => t
    | Raise _ => ([], [])
    end.

(** A history with no demand at all in week 5. *)
Definition zero_actuals : list actual_row :=
  history "SKU001_Snacks" "Mumbai" 1 (fun w => if w =? 5 then 0 else 100).

Definition zero_tables : tables :=
  Eval vm_compute in
    match calculate_baseline_forecast zero_actuals with
    | Ok t => t
    | Raise _ => ([], [])
    end.

(** A history of one unit per week. *)
Definition unit_actuals : list actual_row :=
  history "SKU001_Snacks" "Mumbai" 1 (fun _ => 1).

Definition unit_tables : tables :=
  Eval vm_compute in
    match calculate_baseline_forecast unit_actuals with
    | Ok t => t
    | Raise _ => ([], [])
    end.

(** The first rows of the sample tables (week 8 of the worked example,
    week 5 of the history with a zero). *)
Definition example_baseline_row : baseline_row :=
  Eval vm_compute in hd (mk_baseline 0 "" "" 0 0 0) (fst example_tables).

Definition example_performance_row : performance_row :=
  Eval vm_compute in
    hd (mk_performance 0 "" "" NaN NaN false) (snd example_tables).

Definition zero_performance_row : performance_row :=
  Eval vm_compute in
    hd (mk_performance 0 "" "" NaN NaN false) (snd zero_tables).

(** ** Specification vocabulary for the generators *)

(** [total m post]: from every generator state [m] returns, and its value
    satisfies [post]. *)
Definition total {A} (m : M A) (post : A -> Prop) : Prop :=
  forall s, exists a s', m s = Ok (a, s') /\ post a.

(** The keys of the forecast table in generation order. *)
Definition forecast_keys : list key :=
  flat_map (fun w => flat_map (fun s => map (fun d => (w, s, d)) dcs) skus)
    (range 1 (weeks + 1)).

(** The number of rows of the actuals table under a key. *)
Definition actuals_with_key (adf : list actual_row) (k : key) : nat :=
  List.length (filter (fun a => key_eqb (a_key a) k) adf).

Definition count_key (k : key) (ks : list key) : nat :=
  List.length (filter (fun k' => key_eqb k' k) ks).

(** A sample stream and sample trigonometry for running the generators. *)
Definition half_stream : nat -> Q := fun _ => 0.5%Q.
Definition sample_pi : Q := 3.141592653589793%Q.
Definition sample_sin : Q -> Q := fun _ => 0%Q.

(** A delivery released in weeks 1 to 98 that arrives at least a week
    later and within the horizon. *)
Definition delivery_ok (r : delivery_row) : Prop :=
  1 <= week_release r <= 98 /\
  week_release r + 1 <= week_arrival r <= 104.

(** A sample run of the supplier and deliveries generators. *)
Definition sample_suppliers : list supplier_row :=
  Eval vm_compute in
    match generate_suppliers_data half_stream 0%nat with
    | Ok (df, _) => df
    | Raise _ => []
    end.

Definition sample_deliveries : list delivery_row :=
  Eval vm_compute in
    match generate_deliveries_data half_stream sample_suppliers 15%nat with
    | Ok (df, _) => df
    | Raise _ => []
    end.

Definition sample_deliveries_state : nat :=
  Eval vm_compute in
    match generate_deliveries_data half_stream sample_suppliers 15%nat with
    | Ok (_, s) => s
    | Raise _ => 0%nat
    end.

(** ** The remaining generators and the pipeline *)




Section Pipeline.

Variable rng : nat -> Q.

(** [np.random.randint(lo, hi)], an operation of the same generator, taken
    as a parameter. *)
Variable randint : Z -> Z -> M Z.

(** The two readings of [datetime.now()] in the iteration of a SKU, in
    days: the first before the expiry offset is drawn, the second when the
    remaining days are computed. *)
Variable clock : string -> Q * Q.

Variable np_pi : Q.
Variable np_sin : Q -> Q.




End Pipeline.


(** ** Vocabulary of the further properties *)

(** A forecast row whose flag reflects its week and whose festival
    quantity carries the uplift of at least 40%. *)
Definition forecast_flag_ok (r : forecast_row) : Prop :=
  festival_flag r = (if in_list (f_week r) festival_weeks then 1 else 0) /\
  (in_list (f_week r) festival_weeks = true -> 70 <= forecast_qty r).






(** The ranges of the supplier statistics; the upper ends are not
    reached. *)
Definition supplier_stats_ok (r : supplier_row) : Prop :=
  (2 <= avg_lead_time_wk r)%Q /\ (avg_lead_time_wk r < 5)%Q /\
  (0.5 <= lead_time_std r)%Q /\ (lead_time_std r < 1.5)%Q /\
  (0.7 <= on_time_prob r)%Q /\ (on_time_prob r < 0.95)%Q.

(** A delivery of a supplier of the table, with a quantity in range. *)
Definition delivery_from (suppliers_df : list supplier_row)
  (r : delivery_row) : Prop :=
  200 <= qty r <= 999 /\
  exists sup, In sup suppliers_df /\ d_sku r = s_sku sup
              /\ d_supplier_id r = supplier_id sup.

(** A baseline row and the performance row appended with it: the same
    key, the festival flag of the week, and both errors measured from the
    unrounded forecasts against the stored actual. *)
Definition paired_rows (adf : list actual_row) (b : baseline_row)
  (p : performance_row) : Prop :=
  p_key p = b_key b /\
  is_festival p = in_list (b_week b) festival_weeks /\
  hd_error (current adf (b_key b)) = Some (actual b) /\
  naive_mape p
  = np_div (Qabs (inject_Z (actual b) - naive_baseline adf (b_key b)))
      (actual b) /\
  festival_mape p
  = np_div (Qabs (inject_Z (actual b) - festival_adjusted adf (b_key b)))
      (actual b).



(** The rows the calculator can read: weeks 1 to 104 of a configured SKU
    at a configured DC. *)
Definition relevant (r : actual_row) : bool :=
  (1 <=? a_week r) && (a_week r <=? 104)
  && existsb (String.eqb (a_sku r)) skus
  && existsb (String.eqb (a_dc r)) dcs.

(** The worked example with rows of an unknown SKU, an unknown DC and a
    week outside the horizon mixed in. *)
Definition noisy_actuals : list actual_row :=
  mk_actual 6 "SKU777_Other" "Mumbai" 9999
  :: mk_actual 6 "SKU001_Snacks" "Pune" 9999
  :: example_actuals
  ++ [mk_actual 105 "SKU001_Snacks" "Mumbai" 9999;
      mk_actual 0 "SKU001_Snacks" "Mumbai" 9999].


(** * Properties *)

(** ** Arithmetic of the numeric primitives *)

Lemma in_range (a b x : Z) : In x (range a b) <-> a <= x < b.
Proof.
  unfold range. rewrite in_map_iff. split.
  - intros [i [<- Hi]]. apply in_seq in Hi. lia.
  - intros H. exists (Z.to_nat (x - a)). split; [lia|].
    apply in_seq. lia.
Qed.

Lemma int_floor (x : Q) : (0 <= x)%Q -> int x = Qfloor x.
Proof.
  destruct x as [n d]. unfold Qle, int, Qfloor. simpl. intros H.
  apply Z.quot_div_nonneg; lia.
Qed.

(** [int] does not fall below an integer lower bound of its argument. *)
Lemma int_lower (n : Z) (x : Q) :
  0 <= n -> (inject_Z n <= x)%Q -> n <= int x.
Proof.
  intros Hn Hx.
  assert (H0 : (0 <= x)%Q).
  { apply Qle_trans with (inject_Z n); [|exact Hx].
    unfold Qle. simpl. lia. }
  rewrite (int_floor x H0). rewrite <- (Qfloor_Z n).
  now apply Qfloor_resp_le.
Qed.

Lemma int_mul_1 (x : Q) : int (x * 1) = int x.
Proof.
  destruct x as [n d]. unfold int. simpl.
  now rewrite Z.mul_1_r, Pos.mul_1_r.
Qed.

Lemma py_max_l (a b : Q) : (a <= py_max a b)%Q.
Proof.
  unfold py_max. destruct (Qle_bool b a) eqn:E.
  - apply Qle_refl.
  - apply Qlt_le_weak, Qnot_le_lt. intros H.
    apply Qle_bool_iff in H. congruence.
Qed.

Lemma py_max_r (a b : Q) : (b <= py_max a b)%Q.
Proof.
  unfold py_max. destruct (Qle_bool b a) eqn:E.
  - now apply Qle_bool_iff.
  - apply Qle_refl.
Qed.

(** ** Nested comprehensions *)

Lemma flat_map_nested {X Y Z'} (h : X -> list Y) (g : Y -> list Z')
  (xs : list X) :
  flat_map g (flat_map h xs) = flat_map (fun x => flat_map g (h x)) xs.
Proof.
  induction xs as [|x xs' IH]; simpl; [reflexivity|].
  now rewrite flat_map_app, IH.
Qed.

Lemma flat_map_of_map {X Y Z'} (h : X -> Y) (g : Y -> list Z')
  (xs : list X) :
  flat_map g (map h xs) = flat_map (fun x => g (h x)) xs.
Proof.
  induction xs as [|x xs' IH]; simpl; [reflexivity|]. now rewrite IH.
Qed.

Lemma flat_map_singleton {X Y} (h : X -> Y) (xs : list X) :
  flat_map (fun x => [h x]) xs = map h xs.
Proof.
  induction xs as [|x xs' IH]; simpl; [reflexivity|]. now rewrite IH.
Qed.

(** ** Loops in the result monad *)

Section FoldR.

Context {X B1 B2 : Type}.
Variable f : (list B1 * list B2) -> X -> res (list B1 * list B2).

(** When every iteration only appends rows that depend on the loop
    variable alone, a loop that returns has appended them in order. *)
Lemma foldR_rows (g1 : X -> list B1) (g2 : X -> list B2) (xs : list X) :
  (forall x acc acc', In x xs -> f acc x = Ok acc' ->
     acc' = (fst acc ++ g1 x, snd acc ++ g2 x)) ->
  forall acc acc', foldR f xs acc = Ok acc' ->
    acc' = (fst acc ++ flat_map g1 xs, snd acc ++ flat_map g2 xs).
Proof.
  induction xs as [|x xs' IH]; intros Hf acc acc' H; simpl in *.
  - inversion H; subst. rewrite !app_nil_r. now destruct acc'.
  - destruct (f acc x) as [acc1|e] eqn:E; simpl in H; [|discriminate].
    apply (Hf x acc acc1 (or_introl eq_refl)) in E. subst acc1.
    apply IH in H; [|intros; eapply Hf; eauto].
    simpl in H. now rewrite <- !app_assoc in H.
Qed.

Lemma foldR_rows_nil (g1 : X -> list B1) (g2 : X -> list B2) (xs : list X) :
  (forall x acc acc', In x xs -> f acc x = Ok acc' ->
     acc' = (fst acc ++ g1 x, snd acc ++ g2 x)) ->
  forall b p, foldR f xs ([], []) = Ok (b, p) ->
    b = flat_map g1 xs /\ p = flat_map g2 xs.
Proof.
  intros Hf b p H. apply (foldR_rows g1 g2 xs Hf) in H.
  simpl in H. now inversion H.
Qed.

(** A loop whose every iteration returns, returns. *)
Lemma foldR_returns (xs : list X) :
  (forall x acc, In x xs -> exists acc', f acc x = Ok acc') ->
  forall acc, exists acc', foldR f xs acc = Ok acc'.
Proof.
  induction xs as [|x xs' IH]; intros Hf acc; simpl.
  - eauto.
  - destruct (Hf x acc (or_introl eq_refl)) as [acc1 ->]. simpl.
    apply IH. intros; apply Hf; now right.
Qed.

(** A loop that returns has returned from each of its iterations. *)
Lemma foldR_ok_each (xs : list X) :
  forall acc acc', foldR f xs acc = Ok acc' ->
  forall x, In x xs -> exists a a', f a x = Ok a'.
Proof.
  induction xs as [|y xs' IH]; intros acc acc' H x Hx; simpl in *.
  - contradiction.
  - destruct (f acc y) as [acc1|e] eqn:E; simpl in H; [|discriminate].
    destruct Hx as [->|Hx]; eauto.
Qed.

End FoldR.

(** ** The rows of the baseline and performance tables *)

Lemma baseline_body_rows adf w s d acc acc' :
  baseline_body adf w s acc d = Ok acc' ->
  acc' = (fst acc ++ fst (rows_of adf (w, s, d)),
          snd acc ++ snd (rows_of adf (w, s, d))).
Proof.
  destruct acc as [B P]. unfold baseline_body, rows_of, enough. cbn -[Z.leb].
  destruct (4 <=? _).
  - destruct (select_qty (current_mask w s d) adf) as [|a rest];
      cbn; [discriminate|].
    intros H. now inversion H.
  - intros H. inversion H. cbn. now rewrite !app_nil_r.
Qed.

Lemma baseline_body_returns adf w s d acc :
  (enough adf (w, s, d) = true -> current adf (w, s, d) <> []) ->
  exists acc', baseline_body adf w s acc d = Ok acc'.
Proof.
  destruct acc as [B P]. unfold baseline_body, enough. cbn -[Z.leb].
  destruct (4 <=? _); [|eauto].
  intros H. destruct (select_qty (current_mask w s d) adf); cbn; eauto.
  now destruct H.
Qed.

Lemma in_triples (w : Z) (s d : string) :
  In (w, s, d) triples <-> 5 <= w <= 104 /\ In s skus /\ In d dcs.
Proof.
  unfold triples. rewrite in_flat_map. split.
  - intros [w' [Hw H]]. apply in_flat_map in H. destruct H as [s' [Hs H]].
    apply in_map_iff in H. destruct H as [d' [E Hd]]. inversion E; subst.
    apply in_range in Hw. unfold weeks in Hw. repeat split; auto; lia.
  - intros [Hw [Hs Hd]]. exists w. split.
    + apply in_range. unfold weeks. lia.
    + apply in_flat_map. exists s. split; [exact Hs|].
      apply in_map_iff. now exists d.
Qed.

(** A run that returns has produced, for every triple in loop order, the
    rows of [rows_of]. *)
Lemma calculate_rows adf B P :
  calculate_baseline_forecast adf = Ok (B, P) ->
  B = flat_map (fun k => fst (rows_of adf k)) triples /\
  P = flat_map (fun k => snd (rows_of adf k)) triples.
Proof.
  unfold calculate_baseline_forecast. intros H.
  apply (foldR_rows_nil _
           (fun w => flat_map (fun s => flat_map
              (fun d => fst (rows_of adf (w, s, d))) dcs) skus)
           (fun w => flat_map (fun s => flat_map
              (fun d => snd (rows_of adf (w, s, d))) dcs) skus)) in H.
  - destruct H as [-> ->]. unfold triples.
    split; rewrite flat_map_nested; apply flat_map_ext; intros w;
      rewrite flat_map_nested; apply flat_map_ext; intros s;
      now rewrite flat_map_of_map.
  - intros w acc acc' _ Hw.
    apply (foldR_rows _
             (fun s => flat_map (fun d => fst (rows_of adf (w, s, d))) dcs)
             (fun s => flat_map (fun d => snd (rows_of adf (w, s, d))) dcs))
      in Hw; [exact Hw|].
    intros s acc1 acc1' _ Hs.
    apply (foldR_rows _ (fun d => fst (rows_of adf (w, s, d)))
             (fun d => snd (rows_of adf (w, s, d)))) in Hs; [exact Hs|].
    intros d acc2 acc2' _. apply baseline_body_rows.
Qed.

Lemma baseline_body_ok adf w s d acc acc' :
  baseline_body adf w s acc d = Ok acc' ->
  enough adf (w, s, d) = true -> current adf (w, s, d) <> [].
Proof.
  destruct acc as [B P]. unfold baseline_body, enough. cbn -[Z.leb].
  intros H E. rewrite E in H.
  destruct (select_qty (current_mask w s d) adf); cbn in H; congruence.
Qed.

(** The calculator returns exactly when every reported triple has an
    observation for its own week ([.iloc[0]] finds a row). *)
Lemma calculate_returns adf :
  (forall k, In k triples -> enough adf k = true -> current adf k <> []) ->
  exists B P, calculate_baseline_forecast adf = Ok (B, P).
Proof.
  intros H.
  assert (G : exists acc', calculate_baseline_forecast adf = Ok acc').
  { unfold calculate_baseline_forecast. apply foldR_returns.
    intros w acc Hw. apply foldR_returns. intros s acc1 Hs.
    apply foldR_returns. intros d acc2 Hd.
    apply baseline_body_returns. apply H. apply in_triples.
    apply in_range in Hw. unfold weeks in Hw. repeat split; auto; lia. }
  destruct G as [[B P] G]. eauto.
Qed.

Lemma calculate_ok_current adf t :
  calculate_baseline_forecast adf = Ok t ->
  forall k, In k triples -> enough adf k = true -> current adf k <> [].
Proof.
  unfold calculate_baseline_forecast. intros H [[w s] d] Hk.
  apply in_triples in Hk. destruct Hk as [Hw [Hs Hd]].
  destruct (foldR_ok_each _ _ _ _ H w) as [a1 [a1' H1]].
  { apply in_range. unfold weeks. lia. }
  destruct (foldR_ok_each _ _ _ _ H1 s Hs) as [a2 [a2' H2]].
  destruct (foldR_ok_each _ _ _ _ H2 d Hd) as [a3 [a3' H3]].
  now apply baseline_body_ok with (acc := a3) (acc' := a3').
Qed.

Lemma in_baseline adf B P b :
  calculate_baseline_forecast adf = Ok (B, P) ->
  (In b B <->
   exists k a, In k triples /\ enough adf k = true /\
     hd_error (current adf k) = Some a /\ b = baseline_of adf k a).
Proof.
  intros H. destruct (calculate_rows adf B P H) as [-> _].
  rewrite in_flat_map. split.
  - intros [k [Hk Hb]]. unfold rows_of in Hb.
    destruct (enough adf k) eqn:E; [|contradiction].
    destruct (current adf k) as [|a rest] eqn:C; [contradiction|].
    destruct Hb as [<-|[]]. exists k, a. now rewrite C.
  - intros [k [a [Hk [E [C ->]]]]]. exists k. split; [exact Hk|].
    unfold rows_of. rewrite E.
    destruct (current adf k); inversion C; subst. now left.
Qed.

Lemma in_performance adf B P p :
  calculate_baseline_forecast adf = Ok (B, P) ->
  (In p P <->
   exists k a, In k triples /\ enough adf k = true /\
     hd_error (current adf k) = Some a /\ p = performance_of adf k a).
Proof.
  intros H. destruct (calculate_rows adf B P H) as [_ ->].
  rewrite in_flat_map. split.
  - intros [k [Hk Hb]]. unfold rows_of in Hb.
    destruct (enough adf k) eqn:E; [|contradiction].
    destruct (current adf k) as [|a rest] eqn:C; [contradiction|].
    destruct Hb as [<-|[]]. exists k, a. now rewrite C.
  - intros [k [a [Hk [E [C ->]]]]]. exists k. split; [exact Hk|].
    unfold rows_of. rewrite E.
    destruct (current adf k); inversion C; subst. now left.
Qed.

Lemma baseline_of_key adf k a : b_key (baseline_of adf k a) = k.
Proof. now destruct k as [[w s] d]. Qed.

Lemma performance_of_key adf k a : p_key (performance_of adf k a) = k.
Proof. now destruct k as [[w s] d]. Qed.


Lemma last_four_observations adf w s d :
  List.length (last_four adf (w, s, d)) = observations adf (w - 4) (w - 1) s d.
Proof.
  unfold last_four, select_qty, observations. rewrite length_map.
  f_equal. apply filter_ext. intros r. unfold prior_mask.
  replace (a_week r <? w) with (a_week r <=? w - 1); [reflexivity|].
  destruct (Z.leb_spec (a_week r) (w - 1)), (Z.ltb_spec (a_week r) w);
    auto; lia.
Qed.

(** ** The worked example *)

(** C1: with 480, 510, 495, 505 as the four prior actuals of a (sku, dc)
    pair at festival week 8, a run that returns records exactly one kind
    of baseline row for that triple: naive forecast 497 and
    festival-adjusted forecast 721, the value of round(497 x 1.45). *)
Theorem worked_example_week8 (adf : list actual_row) (sku dc : string)
  (B : list baseline_row) (P : list performance_row) :
  In sku skus -> In dc dcs ->
  last_four adf (8, sku, dc) = [480; 510; 495; 505] ->
  calculate_baseline_forecast adf = Ok (B, P) ->
  (exists b, In b B /\ b_key b = (8, sku, dc)) /\
  (forall b, In b B -> b_key b = (8, sku, dc) ->
     naive_forecast b = 497 /\ festival_adjusted_forecast b = 721) /\
  py_round (497 * 1.45) = 721.
Proof.
  intros Hs Hd Hlf H.
  assert (Hk : In (8, sku, dc) triples) by (apply in_triples; repeat split; auto; lia).
  assert (He : enough adf (8, sku, dc) = true) by (unfold enough; now rewrite Hlf).
  split; [|split; [|reflexivity]].
  - pose proof (calculate_ok_current adf _ H _ Hk He) as Hc.
    destruct (current adf (8, sku, dc)) as [|a rest] eqn:C; [congruence|].
    exists (baseline_of adf (8, sku, dc) a). split; [|reflexivity].
    apply (in_baseline adf B P _ H). exists (8, sku, dc), a.
    now rewrite C.
  - intros b Hb Hkey. apply (in_baseline adf B P b H) in Hb.
    destruct Hb as [k [a [_ [_ [_ ->]]]]].
    rewrite baseline_of_key in Hkey. subst k. cbn.
    unfold festival_adjusted, naive_baseline. rewrite Hlf. split; reflexivity.
Qed.

Lemma worked_example_week8_witness :
  (exists b, In b (fst example_tables)
             /\ b_key b = (8, "SKU001_Snacks"%string, "Mumbai"%string)) /\
  (forall b, In b (fst example_tables) ->
     b_key b = (8, "SKU001_Snacks"%string, "Mumbai"%string) ->
     naive_forecast b = 497 /\ festival_adjusted_forecast b = 721) /\
  py_round (497 * 1.45) = 721.
Proof.
  apply (worked_example_week8 example_actuals "SKU001_Snacks" "Mumbai"
           (fst example_tables) (snd example_tables)).
  - simpl. auto.
  - simpl. auto.
  - vm_compute. reflexivity.
  - vm_compute. reflexivity.
Defined.

(** The unrounded values behind the example: the mean is 497.5 and the
    festival-adjusted value 721.375; [int] truncates both. *)
Lemma worked_example_unrounded :
  (naive_baseline example_actuals
     (8%Z, "SKU001_Snacks"%string, "Mumbai"%string) == 497.5)%Q /\
  (festival_adjusted example_actuals
     (8%Z, "SKU001_Snacks"%string, "Mumbai"%string) == 721.375)%Q.
Proof. split; vm_compute; reflexivity. Qed.

(** ** Stored forecasts *)

Lemma performance_flag adf B P p :
  calculate_baseline_forecast adf = Ok (B, P) -> In p P ->
  is_festival p = in_list (p_week p) festival_weeks.
Proof.
  intros H Hp. apply (in_performance adf B P p H) in Hp.
  destruct Hp as [[[w s] d] [a [_ [_ [_ ->]]]]]. reflexivity.
Qed.

(** C6 (as amended): every baseline row stores the truncated mean as its
    naive forecast; outside festival weeks the stored festival-adjusted
    forecast equals the stored naive forecast, and in a festival week it
    is the truncation of 1.45 times the unrounded mean. *)
Theorem festival_adjustment_stored (adf : list actual_row)
  (B : list baseline_row) (P : list performance_row) (b : baseline_row) :
  calculate_baseline_forecast adf = Ok (B, P) -> In b B ->
  naive_forecast b = int (naive_baseline adf (b_key b)) /\
  (in_list (b_week b) festival_weeks = false ->
     festival_adjusted_forecast b = naive_forecast b) /\
  (in_list (b_week b) festival_weeks = true ->
     festival_adjusted_forecast b
     = int (naive_baseline adf (b_key b) * 1.45)).
Proof.
  intros H Hb. apply (in_baseline adf B P b H) in Hb.
  destruct Hb as [[[w s] d] [a [_ [_ [_ ->]]]]].
  cbn [baseline_of naive_forecast festival_adjusted_forecast b_key b_week
       b_sku b_dc].
  unfold festival_adjusted. cbn [fst].
  split; [reflexivity|]. split; intros ->.
  - apply int_mul_1.
  - reflexivity.
Qed.

Lemma festival_adjustment_stored_witness :
  naive_forecast example_baseline_row
  = int (naive_baseline example_actuals (b_key example_baseline_row)) /\
  (in_list (b_week example_baseline_row) festival_weeks = false ->
     festival_adjusted_forecast example_baseline_row
     = naive_forecast example_baseline_row) /\
  (in_list (b_week example_baseline_row) festival_weeks = true ->
     festival_adjusted_forecast example_baseline_row
     = int (naive_baseline example_actuals (b_key example_baseline_row)
            * 1.45)).
Proof.
  apply (festival_adjustment_stored example_actuals
           (fst example_tables) (snd example_tables)).
  - vm_compute. reflexivity.
  - vm_compute. left. reflexivity.
Defined.

(** In the worked example the festival week 8 stores 721, which is
    neither 1.45 times the stored naive forecast 497 (720.65) nor 1.45
    times the unrounded mean 497.5 (721.375). *)
Lemma festival_adjustment_not_exact :
  calculate_baseline_forecast example_actuals = Ok example_tables /\
  In example_baseline_row (fst example_tables) /\
  in_list (b_week example_baseline_row) festival_weeks = true /\
  ~ (inject_Z (festival_adjusted_forecast example_baseline_row)
     == inject_Z (naive_forecast example_baseline_row) * 1.45)%Q /\
  ~ (inject_Z (festival_adjusted_forecast example_baseline_row)
     == naive_baseline example_actuals (b_key example_baseline_row) * 1.45)%Q.
Proof.
  split; [vm_compute; reflexivity|].
  split; [vm_compute; left; reflexivity|].
  split; [reflexivity|].
  split; vm_compute; intros E; discriminate E.
Qed.

(** With one unit of demand per week the festival week 8 stores the same
    value, 1, in both columns: equality of the stored columns does not
    identify the non-festival weeks. *)
Lemma festival_week_can_coincide :
  calculate_baseline_forecast unit_actuals = Ok unit_tables /\
  exists b, In b (fst unit_tables) /\ b_week b = 8 /\
    in_list (b_week b) festival_weeks = true /\
    festival_adjusted_forecast b = naive_forecast b.
Proof.
  split; [vm_compute; reflexivity|].
  exists (mk_baseline 8 "SKU001_Snacks" "Mumbai" 1 1 1).
  split; [|repeat split].
  vm_compute. do 3 right. left. reflexivity.
Qed.

(** ** Which triples are reported *)

Lemma enough_observations adf w s d :
  enough adf (w, s, d) = true <->
  (4 <= observations adf (w - 4) (w - 1) s d)%nat.
Proof.
  unfold enough. rewrite last_four_observations, Z.leb_le. lia.
Qed.

(** C7: in a run that returns, every row of either table has week >= 5
    and belongs to a (sku, dc) pair with at least four observations in the
    weeks [week-4 .. week-1]; a triple with fewer than four has no row in
    either table. *)
Theorem rows_need_four_prior_weeks (adf : list actual_row)
  (B : list baseline_row) (P : list performance_row) :
  calculate_baseline_forecast adf = Ok (B, P) ->
  (forall b, In b B ->
     5 <= b_week b /\
     (4 <= observations adf (b_week b - 4) (b_week b - 1) (b_sku b) (b_dc b))%nat)
  /\
  (forall p, In p P ->
     5 <= p_week p /\
     (4 <= observations adf (p_week p - 4) (p_week p - 1) (p_sku p) (p_dc p))%nat)
  /\
  (forall w s d, (observations adf (w - 4) (w - 1) s d < 4)%nat ->
     (forall b, In b B -> b_key b <> (w, s, d)) /\
     (forall p, In p P -> p_key p <> (w, s, d))).
Proof.
  intros H.
  assert (HB : forall b, In b B ->
     5 <= b_week b /\
     (4 <= observations adf (b_week b - 4) (b_week b - 1) (b_sku b) (b_dc b))%nat).
  { intros b Hb. apply (in_baseline adf B P b H) in Hb.
    destruct Hb as [[[w s] d] [a [Hk [He [_ ->]]]]].
    apply in_triples in Hk. apply enough_observations in He.
    cbn. split; [lia|exact He]. }
  assert (HP : forall p, In p P ->
     5 <= p_week p /\
     (4 <= observations adf (p_week p - 4) (p_week p - 1) (p_sku p) (p_dc p))%nat).
  { intros p Hp. apply (in_performance adf B P p H) in Hp.
    destruct Hp as [[[w s] d] [a [Hk [He [_ ->]]]]].
    apply in_triples in Hk. apply enough_observations in He.
    cbn. split; [lia|exact He]. }
  split; [exact HB|]. split; [exact HP|].
  intros w s d Hlt. split.
  - intros b Hb E. destruct (HB b Hb) as [_ Hobs].
    unfold b_key in E. inversion E; subst. lia.
  - intros p Hp E. destruct (HP p Hp) as [_ Hobs].
    unfold p_key in E. inversion E; subst. lia.
Qed.

Lemma rows_need_four_prior_weeks_witness :
  (forall b, In b (fst example_tables) ->
     5 <= b_week b /\
     (4 <= observations example_actuals (b_week b - 4) (b_week b - 1)
             (b_sku b) (b_dc b))%nat)
  /\
  (forall p, In p (snd example_tables) ->
     5 <= p_week p /\
     (4 <= observations example_actuals (p_week p - 4) (p_week p - 1)
             (p_sku p) (p_dc p))%nat)
  /\
  (forall w s d, (observations example_actuals (w - 4) (w - 1) s d < 4)%nat ->
     (forall b, In b (fst example_tables) -> b_key b <> (w, s, d)) /\
     (forall p, In p (snd example_tables) -> p_key p <> (w, s, d))).
Proof.
  apply (rows_need_four_prior_weeks example_actuals).
  vm_compute. reflexivity.
Defined.

(** The converse for runs that return: a triple of the loops with four or
    more prior observations has a row in both tables. *)
Lemma reported_when_four_prior_weeks adf B P w s d :
  calculate_baseline_forecast adf = Ok (B, P) ->
  5 <= w <= 104 -> In s skus -> In d dcs ->
  (4 <= observations adf (w - 4) (w - 1) s d)%nat ->
  (exists b, In b B /\ b_key b = (w, s, d)) /\
  (exists p, In p P /\ p_key p = (w, s, d)).
Proof.
  intros H Hw Hs Hd Hobs.
  assert (Hk : In (w, s, d) triples) by (apply in_triples; auto).
  apply enough_observations in Hobs.
  pose proof (calculate_ok_current adf _ H _ Hk Hobs) as Hc.
  destruct (current adf (w, s, d)) as [|a rest] eqn:C; [congruence|].
  split.
  - exists (baseline_of adf (w, s, d) a). split; [|reflexivity].
    apply (in_baseline adf B P _ H). exists (w, s, d), a. now rewrite C.
  - exists (performance_of adf (w, s, d) a). split; [|reflexivity].
    apply (in_performance adf B P _ H). exists (w, s, d), a. now rewrite C.
Qed.

(** The sample history starts in week 4: weeks 5 to 7 have fewer than
    four prior observations and are skipped, week 8 is the first row. *)
Lemma example_skips_early_weeks :
  calculate_baseline_forecast example_actuals = Ok example_tables /\
  observations example_actuals 3 6 "SKU001_Snacks" "Mumbai" = 3%nat /\
  map b_week (fst example_tables) = range 8 105 /\
  map p_week (snd example_tables) = range 8 105.
Proof. repeat split; vm_compute; reflexivity. Qed.

(** ** The accuracy metric *)

Lemma np_div_nonzero (x : Q) (d : Z) :
  d <> 0 -> np_div x d = Fin (x / inject_Z d).
Proof.
  intros H. unfold np_div. now destruct (Z.eqb_spec d 0).
Qed.

Lemma np_div_zero (x : Q) : is_finite (np_div x 0) = false.
Proof. unfold np_div. simpl. now destruct (Qle_bool x 0). Qed.

(** C3: every performance row holds |a - forecast| / a for both methods
    when the week's actual a is not zero; the division has no guard, and
    an actuals table with a zero in a reported week (week 5 of
    [zero_actuals]) reaches the division by zero, whose quotient is not a
    finite number. *)
Theorem mape_formula_and_zero_division (adf : list actual_row)
  (B : list baseline_row) (P : list performance_row) (p : performance_row) :
  calculate_baseline_forecast adf = Ok (B, P) -> In p P ->
  (exists a,
     hd_error (current adf (p_key p)) = Some a /\
     (a <> 0 ->
        naive_mape p
        = Fin (Qabs (inject_Z a - naive_baseline adf (p_key p)) / inject_Z a)
        /\
        festival_mape p
        = Fin (Qabs (inject_Z a - festival_adjusted adf (p_key p))
               / inject_Z a)) /\
     (a = 0 ->
        is_finite (naive_mape p) = false /\
        is_finite (festival_mape p) = false))
  /\
  (exists r p0,
     In r zero_actuals /\ 5 <= a_week r /\ actual_qty r = 0 /\
     calculate_baseline_forecast zero_actuals = Ok zero_tables /\
     In p0 (snd zero_tables) /\ p_key p0 = a_key r /\
     naive_mape p0 = Inf /\ festival_mape p0 = Inf).
Proof.
  intros H Hp. split.
  - apply (in_performance adf B P p H) in Hp.
    destruct Hp as [[[w s] d] [a [_ [_ [C ->]]]]].
    exists a. cbn [performance_of p_key p_week p_sku p_dc naive_mape
                   festival_mape].
    split; [exact C|]. split.
    + intros Ha. now rewrite !np_div_nonzero.
    + intros ->. now rewrite !np_div_zero.
  - exists (mk_actual 5 "SKU001_Snacks" "Mumbai" 0), zero_performance_row.
    split; [vm_compute; do 4 right; left; reflexivity|].
    split; [vm_compute; discriminate|].
    split; [reflexivity|].
    split; [vm_compute; reflexivity|].
    split; [vm_compute; left; reflexivity|].
    repeat split.
Qed.

Lemma mape_formula_and_zero_division_witness :
  (exists a,
     hd_error (current example_actuals (p_key example_performance_row))
     = Some a /\
     (a <> 0 ->
        naive_mape example_performance_row
        = Fin (Qabs (inject_Z a
                     - naive_baseline example_actuals
                         (p_key example_performance_row)) / inject_Z a)
        /\
        festival_mape example_performance_row
        = Fin (Qabs (inject_Z a
                     - festival_adjusted example_actuals
                         (p_key example_performance_row)) / inject_Z a)) /\
     (a = 0 ->
        is_finite (naive_mape example_performance_row) = false /\
        is_finite (festival_mape example_performance_row) = false))
  /\
  (exists r p0,
     In r zero_actuals /\ 5 <= a_week r /\ actual_qty r = 0 /\
     calculate_baseline_forecast zero_actuals = Ok zero_tables /\
     In p0 (snd zero_tables) /\ p_key p0 = a_key r /\
     naive_mape p0 = Inf /\ festival_mape p0 = Inf).
Proof.
  apply (mape_formula_and_zero_division example_actuals
           (fst example_tables) (snd example_tables)).
  - vm_compute. reflexivity.
  - vm_compute. left. reflexivity.
Defined.

(** ** Loops in the generator monad *)

Lemma total_ret {A} (a : A) (post : A -> Prop) : post a -> total (ret a) post.
Proof. intros H s. exists a, s. now split. Qed.

Lemma total_bind {A B} (m : M A) (k : A -> M B) (mid : A -> Prop)
  (post : B -> Prop) :
  total m mid -> (forall a, mid a -> total (k a) post) ->
  total (bind m k) post.
Proof.
  intros Hm Hk s. destruct (Hm s) as [a [s1 [E Ha]]].
  destruct (Hk a Ha s1) as [b [s2 [E2 Hb]]].
  exists b, s2. unfold bind. rewrite E. now split.
Qed.

Lemma total_lift {A} (r : res A) (a : A) (post : A -> Prop) :
  r = Ok a -> post a -> total (lift r) post.
Proof. intros -> H s. exists a, s. now split. Qed.

Lemma total_weaken {A} (m : M A) (post post' : A -> Prop) :
  total m post -> (forall a, post a -> post' a) -> total m post'.
Proof.
  intros Hm Hw s. destruct (Hm s) as [a [s' [E Ha]]]. exists a, s'. auto.
Qed.

Lemma total_run {A} (m : M A) (post : A -> Prop) (s : nat) :
  total m post -> exists a s', m s = Ok (a, s') /\ post a.
Proof. intros H. apply H. Qed.

(** A run determines its value: two postconditions of the same
    computation hold together. *)
Lemma total_both {A} (m : M A) (post post' : A -> Prop) :
  total m post -> total m post' -> total m (fun a => post a /\ post' a).
Proof.
  intros H1 H2 s. destruct (H1 s) as [a [s1 [E1 Ha]]].
  destruct (H2 s) as [a' [s2 [E2 Ha']]].
  rewrite E1 in E2. inversion E2; subst. exists a', s2. auto.
Qed.

Section FoldM.

Context {X B : Type}.
Variable f : list B -> X -> M (list B).

(** When every iteration appends rows to the table, and the property [G]
    of the appended rows is preserved by concatenation, the loop appends
    rows with that property. *)
Lemma total_foldM_app (G : list X -> list B -> Prop) (xs : list X) :
  G [] [] ->
  (forall x xs' r1 r2, G [x] r1 -> G xs' r2 -> G (x :: xs') (r1 ++ r2)) ->
  (forall x acc, In x xs ->
     total (f acc x) (fun acc' => exists rows, acc' = acc ++ rows /\ G [x] rows)) ->
  forall acc,
    total (foldM f xs acc)
      (fun acc' => exists rows, acc' = acc ++ rows /\ G xs rows).
Proof.
  intros Gnil Gapp. induction xs as [|x xs' IH]; intros Hf acc; simpl.
  - apply total_ret. exists []. now rewrite app_nil_r.
  - eapply total_bind; [apply Hf; now left|].
    intros acc1 [r1 [-> Hr1]].
    eapply total_weaken; [apply IH; intros; apply Hf; now right|].
    intros acc2 [r2 [-> Hr2]]. exists (r1 ++ r2).
    rewrite app_assoc. auto.
Qed.

(** Rows satisfying [P], with keys given per loop element. *)
Lemma total_foldM_keyed {K} (P : B -> Prop) (kf : B -> K)
  (keys : X -> list K) (xs : list X) :
  (forall x acc, In x xs ->
     total (f acc x)
       (fun acc' => exists rows, acc' = acc ++ rows /\ Forall P rows
                                 /\ map kf rows = keys x)) ->
  forall acc,
    total (foldM f xs acc)
      (fun acc' => exists rows, acc' = acc ++ rows /\ Forall P rows
                                /\ map kf rows = flat_map keys xs).
Proof.
  intros Hf acc.
  apply (total_foldM_app
           (fun ys rows => Forall P rows /\ map kf rows = flat_map keys ys)).
  - split; [constructor|reflexivity].
  - intros x xs' r1 r2 [H1 E1] [H2 E2]. split.
    + apply Forall_app. auto.
    + rewrite map_app, E1, E2. simpl. now rewrite app_nil_r.
  - intros x acc0 Hx. eapply total_weaken; [apply Hf, Hx|].
    intros acc' [rows [-> [HP E]]]. exists rows. simpl.
    rewrite app_nil_r. auto.
Qed.

(** Rows satisfying [P], any number per iteration. *)
Lemma total_foldM_Forall (P : B -> Prop) (xs : list X) :
  (forall x acc, In x xs ->
     total (f acc x)
       (fun acc' => exists rows, acc' = acc ++ rows /\ Forall P rows)) ->
  forall acc,
    total (foldM f xs acc)
      (fun acc' => exists rows, acc' = acc ++ rows /\ Forall P rows).
Proof.
  intros Hf acc.
  apply (total_foldM_app (fun _ rows => Forall P rows)).
  - constructor.
  - intros x xs' r1 r2 H1 H2. apply Forall_app. auto.
  - exact Hf.
Qed.

End FoldM.

(** ** The forecast generator *)

Lemma dict_get_skus (sku : string) :
  In sku skus -> exists m, dict_get sku_multipliers sku = Ok m.
Proof.
  intros H. simpl in H.
  repeat (destruct H as [<-|H]; [eexists; reflexivity|]). contradiction.
Qed.

Lemma uplift_keeps_floor (n : Z) (b u : Q) :
  0 <= n -> (inject_Z n <= b)%Q -> (0 <= u)%Q -> n <= int (b * (1 + u)).
Proof.
  intros Hn Hb Hu. apply int_lower; [exact Hn|].
  assert (H0 : (0 <= inject_Z n)%Q) by (unfold Qle; simpl; lia).
  nra.
Qed.

Lemma forecast_keys_length : List.length forecast_keys = 1040%nat.
Proof. vm_compute. reflexivity. Qed.

(** ** Keys *)

Lemma key_eqb_eq (k1 k2 : key) : key_eqb k1 k2 = true <-> k1 = k2.
Proof.
  destruct k1 as [[w1 s1] d1], k2 as [[w2 s2] d2]. unfold key_eqb.
  rewrite !andb_true_iff, Z.eqb_eq, !String.eqb_eq. split.
  - intros [[-> ->] ->]. reflexivity.
  - intros E. inversion E. auto.
Qed.

Lemma actuals_with_key_count adf k :
  actuals_with_key adf k = count_key k (map a_key adf).
Proof.
  unfold actuals_with_key, count_key.
  induction adf as [|a adf' IH]; [reflexivity|].
  cbn [map filter]. destruct (key_eqb (a_key a) k);
    cbn [List.length]; now rewrite IH.
Qed.

Lemma forecast_keys_unique (k : key) :
  In k forecast_keys -> count_key k forecast_keys = 1%nat.
Proof.
  assert (H : forallb (fun k => Nat.eqb (count_key k forecast_keys) 1)
                forecast_keys = true) by (vm_compute; reflexivity).
  rewrite forallb_forall in H. intros Hk. now apply Nat.eqb_eq, H.
Qed.

Lemma triples_forecast_keys (k : key) : In k triples -> In k forecast_keys.
Proof.
  destruct k as [[w s] d]. rewrite in_triples. intros [Hw [Hs Hd]].
  unfold forecast_keys. apply in_flat_map. exists w. split.
  - apply in_range. unfold weeks. lia.
  - apply in_flat_map. exists s. split; [exact Hs|].
    apply in_map_iff. now exists d.
Qed.

(** A row of the actuals table under a key is found by [.iloc[0]]. *)
Lemma current_of_key adf k : In k (map a_key adf) -> current adf k <> [].
Proof.
  destruct k as [[w s] d]. intros H. apply in_map_iff in H.
  destruct H as [r [E Hr]]. unfold current, select_qty.
  assert (Hf : In r (filter (current_mask w s d) adf)).
  { apply filter_In. split; [exact Hr|]. unfold a_key in E.
    inversion E; subst. unfold current_mask.
    now rewrite Z.eqb_refl, !String.eqb_refl. }
  destruct (filter (current_mask w s d) adf); [contradiction|discriminate].
Qed.

Lemma current_hd_in adf k a :
  hd_error (current adf k) = Some a ->
  exists r, In r adf /\ a_key r = k /\ actual_qty r = a.
Proof.
  destruct k as [[w s] d]. unfold current, select_qty. intros H.
  destruct (filter (current_mask w s d) adf) as [|r rest] eqn:F;
    [discriminate|].
  simpl in H. inversion H; subst.
  assert (Hr : In r (filter (current_mask w s d) adf))
    by (rewrite F; now left).
  apply filter_In in Hr. destruct Hr as [Hr Hm]. exists r.
  split; [exact Hr|]. split; [|reflexivity].
  unfold current_mask in Hm. rewrite !andb_true_iff in Hm.
  destruct Hm as [[Hw Hs] Hd].
  apply Z.eqb_eq in Hw. apply String.eqb_eq in Hs, Hd.
  unfold a_key. now rewrite Hw, Hs, Hd.
Qed.

Section GeneratorProperties.

Variable rng : nat -> Q.
Hypothesis rng_range : forall n, (0 <= rng n)%Q /\ (rng n < 1)%Q.

Lemma total_random (post : Q -> Prop) :
  (forall r, (0 <= r)%Q -> (r < 1)%Q -> post r) -> total (random rng) post.
Proof.
  intros H s. exists (rng s), (S s). split; [reflexivity|].
  apply H; apply rng_range.
Qed.

Section ForecastProperties.

Variable np_pi : Q.
Variable np_sin : Q -> Q.

Lemma base_demand_floor (week : Z) (sku : string) :
  In sku skus ->
  total (generate_base_demand rng np_pi np_sin week sku)
    (fun q => (50 <= q)%Q).
Proof.
  intros Hs. destruct (dict_get_skus sku Hs) as [m E].
  unfold generate_base_demand.
  eapply total_bind; [apply (total_lift _ m (fun _ => True) E I)|].
  intros m' _. eapply total_bind; [apply (total_random (fun _ => True)); auto|].
  intros r _. apply total_ret. apply py_max_l.
Qed.

(** The forecast table: one row per key in loop order, each with a
    quantity of at least 50. *)
Lemma forecast_rows :
  total (generate_forecast_data rng np_pi np_sin)
    (fun df => Forall (fun r => 50 <= forecast_qty r) df
               /\ map f_key df = forecast_keys).
Proof.
  unfold generate_forecast_data.
  eapply total_weaken.
  - apply (total_foldM_keyed _ (fun r => 50 <= forecast_qty r) f_key
             (fun w => flat_map (fun s => map (fun d => (w, s, d)) dcs) skus)).
    intros w acc _.
    apply (total_foldM_keyed _ (fun r => 50 <= forecast_qty r) f_key
             (fun s => map (fun d => (w, s, d)) dcs)).
    intros s acc1 Hs.
    eapply total_weaken.
    + apply (total_foldM_keyed _ (fun r => 50 <= forecast_qty r) f_key
               (fun d => [(w, s, d)])).
      intros d acc2 _.
      eapply total_bind; [apply (base_demand_floor w s Hs)|].
      intros bd Hbd.
      eapply total_bind with (mid := fun u => (0 <= u)%Q).
      * destruct (in_list w festival_weeks).
        -- eapply total_bind; [apply (total_random (fun r => (0 <= r)%Q)); auto|].
           intros r Hr. apply total_ret. cbv beta in *. lra.
        -- apply total_ret. cbv beta. lra.
      * intros u Hu. apply total_ret. eexists. split; [reflexivity|].
        split; [|reflexivity]. constructor; [|constructor]. simpl.
        now apply uplift_keeps_floor.
    + intros acc' [rows [-> [HP E]]]. exists rows.
      split; [reflexivity|]. split; [exact HP|]. rewrite E.
      apply flat_map_singleton.
  - intros df [rows [-> [HP E]]]. simpl. split; [exact HP|exact E].
Qed.

(** C9: from every generator state the forecast generator returns a
    table of exactly 104 x 5 x 2 = 1040 rows, and every forecast quantity
    is a non-negative integer. *)
Theorem forecast_table_shape (s : nat) :
  exists df s',
    generate_forecast_data rng np_pi np_sin s = Ok (df, s') /\
    List.length df = 1040%nat /\
    Forall (fun r => 0 <= forecast_qty r) df.
Proof.
  destruct (forecast_rows s) as [df [s' [E [HP Hk]]]].
  exists df, s'. split; [exact E|]. split.
  - rewrite <- (length_map f_key), Hk. apply forecast_keys_length.
  - eapply Forall_impl; [|exact HP]. simpl. intros; lia.
Qed.

End ForecastProperties.

(** ** The actuals generator *)

Lemma scaled_floor (x0 t0 x t b : Q) :
  (0 <= x0)%Q -> (0 <= t0)%Q -> (x0 <= x)%Q -> (t0 <= t)%Q ->
  (b <= x0 * t0)%Q -> (b <= x * t)%Q.
Proof.
  intros Hx0 Ht0 Hx Ht Hb.
  apply Qle_trans with (x0 * t0)%Q; [exact Hb|].
  apply Qle_trans with (x * t0)%Q.
  - apply Qmult_le_compat_r; assumption.
  - rewrite (Qmult_comm x t0), (Qmult_comm x t).
    apply Qmult_le_compat_r; [assumption|]. lra.
Qed.

Lemma noise_keeps_floor (fq : Z) (r v : Q) :
  50 <= fq -> (0 <= r)%Q -> (0 <= v)%Q -> (v <= 0.3)%Q ->
  35 <= int (py_max 0 (inject_Z fq * (1 + (r - 0.5) * 2 * v))).
Proof.
  intros Hfq Hr Hv0 Hv. apply int_lower; [lia|].
  eapply Qle_trans; [|apply py_max_r].
  assert (H50 : (50 <= inject_Z fq)%Q).
  { change 50%Q with (inject_Z 50). now rewrite <- Zle_Qle. }
  change (inject_Z 35) with 35%Q.
  assert (Hrv : (0 <= r * v)%Q) by (apply Qmult_le_0_compat; assumption).
  apply (scaled_floor 50 0.7); [lra|lra|exact H50|lra|lra].
Qed.

Lemma location_keeps_positive (a : Z) (c : Q) :
  35 <= a -> (0.95 <= c)%Q -> 33 <= int (inject_Z a * c).
Proof.
  intros Ha Hc. apply int_lower; [lia|].
  assert (H35 : (35 <= inject_Z a)%Q).
  { change 35%Q with (inject_Z 35). now rewrite <- Zle_Qle. }
  change (inject_Z 33) with 33%Q.
  apply (scaled_floor 35 0.95); [lra|lra|exact H35|exact Hc|lra].
Qed.

(** One actual row per forecast row, under the same key and in the same
    order; a forecast of 50 or more gives an actual of 33 or more. *)
Lemma actuals_rows (forecast_df : list forecast_row) :
  Forall (fun r => 50 <= forecast_qty r) forecast_df ->
  total (generate_actuals_data rng forecast_df)
    (fun adf => Forall (fun a => 33 <= actual_qty a) adf
                /\ map a_key adf = map f_key forecast_df).
Proof.
  intros Hfq. unfold generate_actuals_data.
  eapply total_weaken.
  - apply (total_foldM_keyed _ (fun a => 33 <= actual_qty a) a_key
             (fun row => [f_key row])).
    intros row acc Hrow.
    assert (H50 : 50 <= forecast_qty row).
    { rewrite Forall_forall in Hfq. now apply Hfq. }
    eapply total_bind;
      [apply (total_random (fun r => (0 <= r)%Q)); auto|].
    intros r Hr. cbv beta in Hr.
    eapply total_bind with (mid := fun q => 33 <= q).
    + assert (H35 : 35 <= int (py_max 0 (inject_Z (forecast_qty row)
                 * (1 + (r - 0.5) * 2
                        * (if truthy (festival_flag row) then 0.3 else 0.15))))).
      { apply noise_keeps_floor; auto;
          destruct (truthy (festival_flag row)); lra. }
      destruct (String.eqb (f_dc row) "Mumbai").
      * eapply total_bind;
          [apply (total_random (fun r => (0 <= r)%Q)); auto|].
        intros r' Hr'. cbv beta in Hr'. apply total_ret.
        apply location_keeps_positive; [exact H35|lra].
      * eapply total_bind;
          [apply (total_random (fun r => (0 <= r)%Q)); auto|].
        intros r' Hr'. cbv beta in Hr'. apply total_ret.
        apply location_keeps_positive; [exact H35|lra].
    + intros q Hq. apply total_ret. eexists. split; [reflexivity|].
      split; [|reflexivity]. constructor; [exact Hq|constructor].
  - intros adf [rows [-> [HP E]]]. simpl. split; [exact HP|].
    rewrite E. apply flat_map_singleton.
Qed.

(** ** The supplier table *)

(** The five iterations, run symbolically. *)
Lemma suppliers_explicit (s : nat) :
  generate_suppliers_data rng s
  = Ok ([mk_supplier "SUP001" "SKU001_Snacks"
           (2 + rng s * 3) (0.5 + rng (1 + s)%nat * 1)
           (0.7 + rng (2 + s)%nat * 0.25);
         mk_supplier "SUP002" "SKU002_Beverages"
           (2 + rng (3 + s)%nat * 3) (0.5 + rng (4 + s)%nat * 1)
           (0.7 + rng (5 + s)%nat * 0.25);
         mk_supplier "SUP003" "SKU003_Cheese"
           (2 + rng (6 + s)%nat * 3) (0.5 + rng (7 + s)%nat * 1)
           (0.7 + rng (8 + s)%nat * 0.25);
         mk_supplier "SUP004" "SKU004_Bakery"
           (2 + rng (9 + s)%nat * 3) (0.5 + rng (10 + s)%nat * 1)
           (0.7 + rng (11 + s)%nat * 0.25);
         mk_supplier "SUP005" "SKU005_Frozen"
           (2 + rng (12 + s)%nat * 3) (0.5 + rng (13 + s)%nat * 1)
           (0.7 + rng (14 + s)%nat * 0.25)],
        (15 + s)%nat).
Proof. reflexivity. Qed.

(** C10: from every generator state the supplier generator returns
    exactly five rows, the i-th pairing the i-th supplier with the i-th
    SKU (each supplier and each SKU exactly once), and every on-time
    probability lies in [0.70, 0.95]. *)
Theorem supplier_table_shape (s : nat) :
  exists df s',
    generate_suppliers_data rng s = Ok (df, s') /\
    List.length df = 5%nat /\
    map s_sku df = skus /\ map supplier_id df = suppliers /\
    NoDup (map s_sku df) /\ NoDup (map supplier_id df) /\
    Forall (fun r => (0.7 <= on_time_prob r)%Q /\ (on_time_prob r <= 0.95)%Q)
      df.
Proof.
  eexists. eexists. split; [apply suppliers_explicit|].
  split; [reflexivity|]. split; [reflexivity|]. split; [reflexivity|].
  assert (ND : forall l : list string,
             (forallb (fun x => Nat.eqb (count_occ string_dec l x) 1) l = true)
             -> NoDup l).
  { intros l H. apply (NoDup_count_occ' string_dec). intros x Hx.
    rewrite forallb_forall in H. now apply Nat.eqb_eq, H. }
  split; [apply ND; reflexivity|]. split; [apply ND; reflexivity|].
  repeat constructor; simpl;
    match goal with
    | |- context [rng ?n] => destruct (rng_range n); lra
    end.
Qed.

(** ** The deliveries table *)

(** Every recorded delivery is released in weeks 1 to 98 and arrives at
    least a week later, within the horizon; this holds for every
    supplier table. *)
Lemma deliveries_rows (suppliers_df : list supplier_row) :
  total (generate_deliveries_data rng suppliers_df) (Forall delivery_ok).
Proof.
  unfold generate_deliveries_data.
  eapply total_weaken.
  - apply (total_foldM_Forall _ delivery_ok).
    intros w acc Hw. apply in_range in Hw. unfold weeks in Hw.
    apply (total_foldM_Forall _ delivery_ok).
    intros sup acc1 _.
    eapply total_bind; [apply (total_random (fun _ => True)); auto|].
    intros r _. destruct (Qlt_bool r 0.6).
    + eapply total_bind; [apply (total_random (fun _ => True)); auto|].
      intros r2 _. cbv zeta.
      destruct (Z.leb_spec
                  (w + Z.max 1 (int (avg_lead_time_wk sup
                                     + (r2 - 0.5) * lead_time_std sup * 2)))
                  weeks) as [Hle|Hgt].
      * eapply total_bind; [apply (total_random (fun _ => True)); auto|].
        intros r3 _. apply total_ret. eexists. split; [reflexivity|].
        constructor; [|constructor]. unfold delivery_ok, weeks in *.
        simpl. lia.
      * apply total_ret. exists []. now rewrite app_nil_r.
    + apply total_ret. exists []. now rewrite app_nil_r.
  - intros df [rows [-> H]]. exact H.
Qed.

(** C5: from every generator state and for every supplier table, the
    deliveries generator returns, and every delivery row arrives no
    earlier than it is released (the lead time is at least one week) and
    no later than week 104. *)
Theorem delivery_arrival_bounds (suppliers_df : list supplier_row) (s : nat) :
  exists df s',
    generate_deliveries_data rng suppliers_df s = Ok (df, s') /\
    Forall (fun r => week_arrival r >= week_release r
                     /\ 1 <= week_arrival r - week_release r
                     /\ week_arrival r <= 104) df.
Proof.
  destruct (deliveries_rows suppliers_df s) as [df [s' [E H]]].
  exists df, s'. split; [exact E|].
  eapply Forall_impl; [|exact H]. unfold delivery_ok. intros r Hr. lia.
Qed.

(** C2 (what the code does): the loop [range(1, weeks - 5)] visits the
    release weeks 1 to 98, so no delivery is ever released in week 99;
    week 98 is reached, as in the sample run. *)
Theorem release_weeks_stop_at_98 (suppliers_df : list supplier_row) (s : nat) :
  range 1 (weeks - 5) = range 1 99 /\
  ~ In 99 (range 1 (weeks - 5)) /\
  (exists df s',
     generate_deliveries_data rng suppliers_df s = Ok (df, s') /\
     Forall (fun r => 1 <= week_release r <= 98) df /\
     ~ (exists r, In r df /\ week_release r = 99)) /\
  (generate_suppliers_data half_stream 0%nat = Ok (sample_suppliers, 15%nat) /\
   generate_deliveries_data half_stream sample_suppliers 15%nat
   = Ok (sample_deliveries, sample_deliveries_state) /\
   (exists r, In r sample_deliveries /\ week_release r = 98) /\
   ~ (exists r, In r sample_deliveries /\ week_release r = 99)).
Proof.
  split; [reflexivity|].
  split; [rewrite in_range; unfold weeks; lia|].
  split.
  - destruct (deliveries_rows suppliers_df s) as [df [s' [E H]]].
    exists df, s'. split; [exact E|]. split.
    + eapply Forall_impl; [|exact H]. unfold delivery_ok. intros r Hr. lia.
    + intros [r [Hr E99]]. rewrite Forall_forall in H.
      destruct (H r Hr) as [Hrel _]. lia.
  - split; [vm_compute; reflexivity|].
    split; [vm_compute; reflexivity|].
    split.
    + assert (Hex : existsb (fun r => week_release r =? 98) sample_deliveries
                    = true) by (vm_compute; reflexivity).
      apply existsb_exists in Hex. destruct Hex as [r [Hr E]].
      exists r. split; [exact Hr|]. now apply Z.eqb_eq.
    + intros [r [Hr E]].
      assert (Hall : forallb (fun r => negb (week_release r =? 99))
                       sample_deliveries = true) by (vm_compute; reflexivity).
      rewrite forallb_forall in Hall. specialize (Hall r Hr).
      rewrite E in Hall. discriminate Hall.
Qed.

(** ** The pipeline: forecast, then actuals, then the calculator *)

Section Pipeline.

Variable np_pi : Q.
Variable np_sin : Q -> Q.

(** C8: for the forecast table of any run and the actuals table generated
    from it, every (week, sku, dc) key of a forecast row is the key of
    exactly one actuals row. *)
Theorem one_actual_per_forecast_key (s : nat) :
  exists fdf s1 adf s2,
    generate_forecast_data rng np_pi np_sin s = Ok (fdf, s1) /\
    generate_actuals_data rng fdf s1 = Ok (adf, s2) /\
    forall f, In f fdf -> actuals_with_key adf (f_key f) = 1%nat.
Proof.
  destruct (forecast_rows np_pi np_sin s) as [fdf [s1 [E1 [Hfq Hk]]]].
  destruct (actuals_rows fdf Hfq s1) as [adf [s2 [E2 [_ Hak]]]].
  exists fdf, s1, adf, s2. split; [exact E1|]. split; [exact E2|].
  intros f Hf. rewrite actuals_with_key_count, Hak, Hk.
  apply forecast_keys_unique. rewrite <- Hk. now apply in_map.
Qed.

(** C4: in every run of the pipeline the forecast quantities are at least
    50 and every actual quantity is strictly positive; the calculator
    then returns on the generated actuals and every MAPE it stores is a
    finite quotient (no division by zero). *)
Theorem pipeline_actuals_positive (s : nat) :
  exists fdf s1 adf s2 B P,
    generate_forecast_data rng np_pi np_sin s = Ok (fdf, s1) /\
    generate_actuals_data rng fdf s1 = Ok (adf, s2) /\
    Forall (fun f => 50 <= forecast_qty f) fdf /\
    Forall (fun a => 0 < actual_qty a) adf /\
    calculate_baseline_forecast adf = Ok (B, P) /\
    Forall (fun p => is_finite (naive_mape p) = true
                     /\ is_finite (festival_mape p) = true) P.
Proof.
  destruct (forecast_rows np_pi np_sin s) as [fdf [s1 [E1 [Hfq Hk]]]].
  destruct (actuals_rows fdf Hfq s1) as [adf [s2 [E2 [Hpos Hak]]]].
  rewrite Hk in Hak.
  destruct (calculate_returns adf) as [B [P E3]].
  { intros k Hk3 _. apply current_of_key. rewrite Hak.
    now apply triples_forecast_keys. }
  exists fdf, s1, adf, s2, B, P.
  split; [exact E1|]. split; [exact E2|]. split; [exact Hfq|].
  split; [eapply Forall_impl; [|exact Hpos]; simpl; intros; lia|].
  split; [exact E3|].
  apply Forall_forall. intros p Hp.
  apply (in_performance adf B P p E3) in Hp.
  destruct Hp as [[[w sk] d] [a [_ [_ [C ->]]]]].
  assert (Ha : 33 <= a).
  { apply current_hd_in in C. destruct C as [r [Hr [_ <-]]].
    rewrite Forall_forall in Hpos. now apply Hpos. }
  cbn [performance_of naive_mape festival_mape].
  rewrite !np_div_nonzero by lia. split; reflexivity.
Qed.

End Pipeline.

End GeneratorProperties.

(** ** The theorems at the sample stream *)

Lemma forecast_table_shape_witness :
  exists df s',
    generate_forecast_data half_stream sample_pi sample_sin 0%nat = Ok (df, s') /\
    List.length df = 1040%nat /\
    Forall (fun r => 0 <= forecast_qty r) df.
Proof.
  apply (forecast_table_shape half_stream).
  intros n. split; vm_compute; [discriminate|reflexivity].
Defined.

Lemma supplier_table_shape_witness :
  exists df s',
    generate_suppliers_data half_stream 0%nat = Ok (df, s') /\
    List.length df = 5%nat /\
    map s_sku df = skus /\ map supplier_id df = suppliers /\
    NoDup (map s_sku df) /\ NoDup (map supplier_id df) /\
    Forall (fun r => (0.7 <= on_time_prob r)%Q /\ (on_time_prob r <= 0.95)%Q)
      df.
Proof.
  apply (supplier_table_shape half_stream).
  intros n. split; vm_compute; [discriminate|reflexivity].
Defined.

Lemma delivery_arrival_bounds_witness :
  exists df s',
    generate_deliveries_data half_stream sample_suppliers 15%nat = Ok (df, s') /\
    Forall (fun r => week_arrival r >= week_release r
                     /\ 1 <= week_arrival r - week_release r
                     /\ week_arrival r <= 104) df.
Proof.
  apply (delivery_arrival_bounds half_stream).
  intros n. split; vm_compute; [discriminate|reflexivity].
Defined.

Lemma release_weeks_stop_at_98_witness :
  range 1 (weeks - 5) = range 1 99 /\
  ~ In 99 (range 1 (weeks - 5)) /\
  (exists df s',
     generate_deliveries_data half_stream sample_suppliers 15%nat = Ok (df, s') /\
     Forall (fun r => 1 <= week_release r <= 98) df /\
     ~ (exists r, In r df /\ week_release r = 99)) /\
  (generate_suppliers_data half_stream 0%nat = Ok (sample_suppliers, 15%nat) /\
   generate_deliveries_data half_stream sample_suppliers 15%nat
   = Ok (sample_deliveries, sample_deliveries_state) /\
   (exists r, In r sample_deliveries /\ week_release r = 98) /\
   ~ (exists r, In r sample_deliveries /\ week_release r = 99)).
Proof.
  apply (release_weeks_stop_at_98 half_stream).
  intros n. split; vm_compute; [discriminate|reflexivity].
Defined.

Lemma one_actual_per_forecast_key_witness :
  exists fdf s1 adf s2,
    generate_forecast_data half_stream sample_pi sample_sin 0%nat = Ok (fdf, s1) /\
    generate_actuals_data half_stream fdf s1 = Ok (adf, s2) /\
    forall f, In f fdf -> actuals_with_key adf (f_key f) = 1%nat.
Proof.
  apply (one_actual_per_forecast_key half_stream).
  intros n. split; vm_compute; [discriminate|reflexivity].
Defined.

Lemma pipeline_actuals_positive_witness :
  exists fdf s1 adf s2 B P,
    generate_forecast_data half_stream sample_pi sample_sin 0%nat = Ok (fdf, s1) /\
    generate_actuals_data half_stream fdf s1 = Ok (adf, s2) /\
    Forall (fun f => 50 <= forecast_qty f) fdf /\
    Forall (fun a => 0 < actual_qty a) adf /\
    calculate_baseline_forecast adf = Ok (B, P) /\
    Forall (fun p => is_finite (naive_mape p) = true
                     /\ is_finite (festival_mape p) = true) P.
Proof.
  apply (pipeline_actuals_positive half_stream).
  intros n. split; vm_compute; [discriminate|reflexivity].
Defined.

(** * Further properties of the generators *)

(** ** More arithmetic *)

Lemma int_le_self (x : Q) : (0 <= x)%Q -> (inject_Z (int x) <= x)%Q.
Proof. intros H. rewrite (int_floor x H). apply Qfloor_le. Qed.


(** [int] stays below a strict integer upper bound of its argument. *)
Lemma int_upper (n : Z) (x : Q) :
  (0 <= x)%Q -> (x < inject_Z n)%Q -> int x <= n - 1.
Proof.
  intros H0 Hx. pose proof (int_le_self x H0) as L.
  assert (Hlt : (inject_Z (int x) < inject_Z n)%Q) by lra.
  rewrite <- Zlt_Qlt in Hlt. lia.
Qed.



(** ** One row per iteration *)


Lemma Forall2_length_eq {X Y} (R : X -> Y -> Prop) xs ys :
  Forall2 R xs ys -> List.length xs = List.length ys.
Proof. induction 1; simpl; congruence. Qed.

Lemma Forall2_right {X Y} (R : X -> Y -> Prop) (P : Y -> Prop) xs ys :
  Forall2 R xs ys -> (forall x y, In x xs -> R x y -> P y) -> Forall P ys.
Proof.
  induction 1 as [|x y xs ys HR _ IH]; intros H; constructor.
  - apply (H x y); [now left|exact HR].
  - apply IH. intros x' y' Hx. apply H. now right.
Qed.


(** ** Base demand *)






Section ForecastRanges.

Variable rng : nat -> Q.
Hypothesis rng_range : forall n, (0 <= rng n)%Q /\ (rng n < 1)%Q.
Variable np_pi : Q.
Variable np_sin : Q -> Q.

Lemma forecast_flags_rows :
  total (generate_forecast_data rng np_pi np_sin)
    (fun df => Forall forecast_flag_ok df /\ map f_key df = forecast_keys).
Proof.
  unfold generate_forecast_data.
  eapply total_weaken.
  - apply (total_foldM_keyed _ forecast_flag_ok f_key
             (fun w => flat_map (fun s => map (fun d => (w, s, d)) dcs) skus)).
    intros w acc _.
    apply (total_foldM_keyed _ forecast_flag_ok f_key
             (fun s => map (fun d => (w, s, d)) dcs)).
    intros s acc1 Hs.
    eapply total_weaken.
    + apply (total_foldM_keyed _ forecast_flag_ok f_key
               (fun d => [(w, s, d)])).
      intros d acc2 _.
      eapply total_bind; [apply (base_demand_floor rng rng_range _ _ w s Hs)|].
      intros bd Hbd. cbv beta in Hbd.
      eapply total_bind
        with (mid := fun u => (0 <= u)%Q /\
                (in_list w festival_weeks = true -> (0.4 <= u)%Q)).
      * destruct (in_list w festival_weeks).
        -- eapply total_bind;
             [apply (total_random rng rng_range (fun r => (0 <= r)%Q)); auto|].
           intros r Hr. cbv beta in Hr. apply total_ret. split; [lra|].
           intros _. lra.
        -- apply total_ret. split; [lra|discriminate].
      * intros u [Hu0 Hu]. apply total_ret. eexists. split; [reflexivity|].
        split; [|reflexivity]. constructor; [|constructor].
        unfold forecast_flag_ok. simpl. split; [reflexivity|].
        intros Hf. specialize (Hu Hf). apply int_lower; [lia|].
        change (inject_Z 70) with 70%Q.
        apply (scaled_floor 50 1.4); lra.
    + intros acc' [rows [-> [HP E]]]. exists rows.
      split; [reflexivity|]. split; [exact HP|]. rewrite E.
      apply flat_map_singleton.
  - intros df [rows [-> [HP E]]]. simpl. split; [exact HP|exact E].
Qed.

(** X2: in every forecast table the festival flag is 1 exactly in the
    twelve festival weeks and 0 otherwise, the rows follow the loop order
    (week, then SKU, then DC), 120 of the 1040 rows are flagged, and a
    flagged row has a quantity of at least 70 (the floor 50 under the
    uplift of at least 40%). *)
Theorem forecast_festival_flags (s : nat) :
  exists df s',
    generate_forecast_data rng np_pi np_sin s = Ok (df, s') /\
    map f_key df = forecast_keys /\
    Forall forecast_flag_ok df /\
    List.length (filter (fun r => festival_flag r =? 1) df) = 120%nat.
Proof.
  destruct (forecast_flags_rows s) as [df [s' [E [HP Hk]]]].
  exists df, s'. split; [exact E|]. split; [exact Hk|]. split; [exact HP|].
  assert (Hc : forall l : list forecast_row, Forall forecast_flag_ok l ->
            List.length (filter (fun r => festival_flag r =? 1) l)
            = List.length (filter (fun k => in_list (fst (fst k)) festival_weeks)
                             (map f_key l))).
  { induction 1 as [|r l [Hflag _] _ IH]; [reflexivity|].
    cbn [map filter]. unfold f_key at 1. cbn [fst]. rewrite Hflag.
    destruct (in_list (f_week r) festival_weeks); cbn; now rewrite IH. }
  rewrite (Hc df HP), Hk. vm_compute. reflexivity.
Qed.

End ForecastRanges.

Lemma forecast_festival_flags_witness :
  exists df s',
    generate_forecast_data half_stream sample_pi sample_sin 0%nat = Ok (df, s') /\
    map f_key df = forecast_keys /\
    Forall forecast_flag_ok df /\
    List.length (filter (fun r => festival_flag r =? 1) df) = 120%nat.
Proof.
  apply (forecast_festival_flags half_stream).
  intros n. split; vm_compute; [discriminate|reflexivity].
Defined.

(** ** Ranges under a sine within [-1, 1] *)

Section SineRange.

Variable rng : nat -> Q.
Hypothesis rng_range : forall n, (0 <= rng n)%Q /\ (rng n < 1)%Q.
Variable np_pi : Q.
Variable np_sin : Q -> Q.
Hypothesis sin_range : forall x, (-1 <= np_sin x)%Q /\ (np_sin x <= 1)%Q.




End SineRange.


(** ** Actuals from an arbitrary forecast table *)






Section ActualsAnyForecast.

Variable rng : nat -> Q.
Hypothesis rng_range : forall n, (0 <= rng n)%Q /\ (rng n < 1)%Q.



End ActualsAnyForecast.


(** ** Capacity and inventory *)

Section SimpleTables.

Variable rng : nat -> Q.
Hypothesis rng_range : forall n, (0 <= rng n)%Q /\ (rng n < 1)%Q.

Lemma int_affine_range (lo width : Z) (r : Q) :
  0 <= lo -> 0 < width -> (0 <= r)%Q -> (r < 1)%Q ->
  lo <= int (inject_Z lo + r * inject_Z width) <= lo + width - 1.
Proof.
  intros Hlo Hw Hr0 Hr1.
  assert (HL : (0 <= inject_Z lo)%Q)
    by (change 0%Q with (inject_Z 0); now rewrite <- Zle_Qle).
  assert (HW : (0 < inject_Z width)%Q)
    by (change 0%Q with (inject_Z 0); now rewrite <- Zlt_Qlt).
  assert (Hp : (0 <= r * inject_Z width)%Q)
    by (apply Qmult_le_0_compat; lra).
  assert (Hq : (r * inject_Z width < inject_Z width)%Q).
  { setoid_replace (inject_Z width) with (1 * inject_Z width)%Q at 2 by ring.
    apply Qmult_lt_compat_r; assumption. }
  split.
  - apply int_lower; [exact Hlo|]. lra.
  - replace (lo + width - 1) with ((lo + width) - 1) by lia.
    apply int_upper; [lra|]. rewrite inject_Z_plus. lra.
Qed.



Section Inventory.

Variable randint : Z -> Z -> M Z.
Hypothesis randint_range :
  forall lo hi, lo < hi -> total (randint lo hi) (fun v => lo <= v < hi).
Variable clock : string -> Q * Q.
Hypothesis clock_lag :
  forall sku, (fst (clock sku) <= snd (clock sku))%Q /\
              (snd (clock sku) < fst (clock sku) + 1)%Q.



End Inventory.

End SimpleTables.



(** ** Supplier statistics and the deliveries they drive *)

Lemma StronglySorted_app (l1 l2 : list Z) :
  StronglySorted Z.le l1 -> StronglySorted Z.le l2 ->
  (forall a b, In a l1 -> In b l2 -> a <= b) ->
  StronglySorted Z.le (l1 ++ l2).
Proof.
  induction l1 as [|a l1 IH]; intros H1 H2 H; simpl; [exact H2|].
  inversion H1 as [|? ? S1 F1]; subst. constructor.
  - apply IH; auto. intros x y Hx Hy. apply H; [now right|exact Hy].
  - apply Forall_app. split; [exact F1|].
    apply Forall_forall. intros b Hb. apply H; [now left|exact Hb].
Qed.

Lemma same_week_sorted (w : Z) (rows : list delivery_row) :
  Forall (fun r => week_release r = w) rows ->
  StronglySorted Z.le (map week_release rows).
Proof.
  induction 1 as [|r rows E F IH]; simpl; constructor; [exact IH|].
  apply Forall_forall. intros z Hz. apply in_map_iff in Hz.
  destruct Hz as [r' [<- Hr']]. rewrite Forall_forall in F.
  rewrite E, (F r' Hr'). lia.
Qed.

Section Deliveries.

Variable rng : nat -> Q.
Hypothesis rng_range : forall n, (0 <= rng n)%Q /\ (rng n < 1)%Q.

Lemma suppliers_stats (s : nat) :
  exists df,
    generate_suppliers_data rng s = Ok (df, (15 + s)%nat) /\
    Forall supplier_stats_ok df /\ List.length df = 5%nat.
Proof.
  eexists. split; [apply suppliers_explicit|]. split; [|reflexivity].
  unfold supplier_stats_ok. repeat constructor; simpl;
    match goal with
    | |- context [rng ?n] => destruct (rng_range n); lra
    end.
Qed.


(** Every delivery copies the SKU and id of a supplier row and carries a
    quantity in [200, 999]; a week contributes at most one delivery per
    supplier row. *)
Lemma deliveries_from_rows (suppliers_df : list supplier_row) :
  total (generate_deliveries_data rng suppliers_df)
    (fun df => Forall (delivery_from suppliers_df) df /\
               (List.length df <= 98 * List.length suppliers_df)%nat).
Proof.
  unfold generate_deliveries_data.
  eapply total_weaken.
  - apply (total_foldM_app _
             (fun ws rows => Forall (delivery_from suppliers_df) rows /\
                (List.length rows
                 <= List.length ws * List.length suppliers_df)%nat)).
    + split; [constructor|simpl; lia].
    + intros w ws' r1 r2 [F1 L1] [F2 L2]. split.
      * apply Forall_app. auto.
      * rewrite length_app. simpl in *. lia.
    + intros w acc _. eapply total_weaken.
      * apply (total_foldM_app _
                 (fun sups rows =>
                    Forall (fun r => 200 <= qty r <= 999 /\
                              exists sup, In sup sups /\ d_sku r = s_sku sup
                                /\ d_supplier_id r = supplier_id sup) rows /\
                    (List.length rows <= List.length sups)%nat)).
        -- split; [constructor|simpl; lia].
        -- intros x xs' r1 r2 [F1 L1] [F2 L2]. split.
           ++ apply Forall_app. split.
              ** eapply Forall_impl; [|exact F1].
                 intros r [Hq [sup [[<-|[]] Hs]]]. split; [exact Hq|].
                 exists x. split; [now left|exact Hs].
              ** eapply Forall_impl; [|exact F2].
                 intros r [Hq [sup [Hin Hs]]]. split; [exact Hq|].
                 exists sup. split; [now right|exact Hs].
           ++ rewrite length_app. simpl in *. lia.
        -- intros sup acc1 _.
           eapply total_bind;
             [apply (total_random rng rng_range (fun _ => True)); auto|].
           intros r _. destruct (Qlt_bool r 0.6).
           ++ eapply total_bind;
                [apply (total_random rng rng_range (fun _ => True)); auto|].
              intros r2 _. cbv zeta.
              destruct (w + Z.max 1 (int (avg_lead_time_wk sup
                          + (r2 - 0.5) * lead_time_std sup * 2)) <=? weeks).
              ** eapply total_bind;
                   [apply (total_random rng rng_range
                             (fun r => (0 <= r)%Q /\ (r < 1)%Q)); auto|].
                 intros r3 [Hr0 Hr1]. apply total_ret. eexists.
                 split; [reflexivity|]. split; [|simpl; lia].
                 constructor; [|constructor]. cbn [qty d_sku d_supplier_id].
                 split.
                 --- apply (int_affine_range 200 800 r3); auto; lia.
                 --- exists sup. split; [now left|]. split; reflexivity.
              ** apply total_ret. exists []. rewrite app_nil_r.
                 split; [reflexivity|]. split; [constructor|simpl; lia].
           ++ apply total_ret. exists []. rewrite app_nil_r.
              split; [reflexivity|]. split; [constructor|simpl; lia].
      * intros acc' [rows [-> [F L]]]. exists rows.
        split; [reflexivity|]. split; [exact F|simpl; lia].
  - intros df [rows [-> [F L]]]. simpl. split; [exact F|].
    replace (List.length (range 1 (weeks - 5))) with 98%nat in L
      by reflexivity.
    exact L.
Qed.

(** X8: for every supplier table the deliveries generator returns rows
    that each copy the SKU and supplier id of one supplier row and carry a
    quantity between 200 and 999; there are at most 98 rows per supplier
    row, so an empty supplier table gives an empty deliveries table. *)
Theorem deliveries_from_suppliers (suppliers_df : list supplier_row)
  (s : nat) :
  exists df s',
    generate_deliveries_data rng suppliers_df s = Ok (df, s') /\
    Forall (delivery_from suppliers_df) df /\
    (List.length df <= 98 * List.length suppliers_df)%nat /\
    (suppliers_df = [] -> df = []).
Proof.
  destruct (deliveries_from_rows suppliers_df s) as [df [s' [E [F L]]]].
  exists df, s'. split; [exact E|]. split; [exact F|]. split; [exact L|].
  intros ->. simpl in L. destruct df; [reflexivity|simpl in L; lia].
Qed.

Lemma deliveries_sorted_rows (suppliers_df : list supplier_row) :
  total (generate_deliveries_data rng suppliers_df)
    (fun df => StronglySorted Z.le (map week_release df)).
Proof.
  unfold generate_deliveries_data.
  assert (Hsorted : StronglySorted Z.le (range 1 (weeks - 5))).
  { assert (Hr : forall n a, StronglySorted Z.le
                   (map (fun i => a + Z.of_nat i) (seq 0 n))).
    { induction n as [|n IH]; intros a; [constructor|].
      simpl. constructor.
      - rewrite <- seq_shift, map_map.
        erewrite map_ext; [apply (IH (a + 1))|]. intros i. simpl. lia.
      - apply Forall_forall. intros z Hz. apply in_map_iff in Hz.
        destruct Hz as [i [<- _]]. lia. }
    apply Hr. }
  eapply total_weaken.
  - apply (total_foldM_app _
             (fun ws rows =>
                Forall (fun r => In (week_release r) ws) rows /\
                (StronglySorted Z.le ws ->
                 StronglySorted Z.le (map week_release rows)))).
    + split; constructor.
    + intros w ws' r1 r2 [F1 S1] [F2 S2]. split.
      * apply Forall_app. split.
        -- eapply Forall_impl; [|exact F1]. intros r [<-|[]]. now left.
        -- eapply Forall_impl; [|exact F2]. intros r Hr. now right.
      * intros Hs. inversion Hs as [|? ? Hs' Hle]; subst.
        rewrite map_app. apply StronglySorted_app.
        -- apply S1. constructor; constructor.
        -- apply S2, Hs'.
        -- intros a b Ha Hb. apply in_map_iff in Ha, Hb.
           destruct Ha as [ra [<- Hra]]. destruct Hb as [rb [<- Hrb]].
           rewrite Forall_forall in F1, F2, Hle.
           destruct (F1 ra Hra) as [<-|[]]. apply Hle. now apply F2.
    + intros w acc _. eapply total_weaken.
      * apply (total_foldM_Forall _ (fun r => week_release r = w)).
        intros sup acc1 _.
        eapply total_bind;
          [apply (total_random rng rng_range (fun _ => True)); auto|].
        intros r _. destruct (Qlt_bool r 0.6).
        -- eapply total_bind;
             [apply (total_random rng rng_range (fun _ => True)); auto|].
           intros r2 _. cbv zeta.
           destruct (w + Z.max 1 (int (avg_lead_time_wk sup
                       + (r2 - 0.5) * lead_time_std sup * 2)) <=? weeks).
           ++ eapply total_bind;
                [apply (total_random rng rng_range (fun _ => True)); auto|].
              intros r3 _. apply total_ret. eexists.
              split; [reflexivity|]. constructor; [reflexivity|constructor].
           ++ apply total_ret. exists []. now rewrite app_nil_r.
        -- apply total_ret. exists []. now rewrite app_nil_r.
      * intros acc' [rows [-> F]]. exists rows. split; [reflexivity|].
        split.
        -- eapply Forall_impl; [|exact F]. intros r <-. now left.
        -- intros _. now apply (same_week_sorted w).
  - intros df [rows [-> [_ S]]]. simpl. apply S, Hsorted.
Qed.

(** X9: for every supplier table the deliveries are listed in
    non-decreasing order of release week. *)
Theorem deliveries_sorted_by_release (suppliers_df : list supplier_row)
  (s : nat) :
  exists df s',
    generate_deliveries_data rng suppliers_df s = Ok (df, s') /\
    StronglySorted Z.le (map week_release df).
Proof. apply deliveries_sorted_rows. Qed.

Lemma lead_time_rows (suppliers_df : list supplier_row) :
  Forall supplier_stats_ok suppliers_df ->
  total (generate_deliveries_data rng suppliers_df)
    (Forall (fun r => 1 <= week_arrival r - week_release r <= 6)).
Proof.
  intros Hstats. unfold generate_deliveries_data.
  eapply total_weaken.
  - apply (total_foldM_Forall _
             (fun r => 1 <= week_arrival r - week_release r <= 6)).
    intros w acc _.
    apply (total_foldM_Forall _
             (fun r => 1 <= week_arrival r - week_release r <= 6)).
    intros sup acc1 Hsup.
    assert (Hok : supplier_stats_ok sup)
      by (rewrite Forall_forall in Hstats; now apply Hstats).
    destruct Hok as [Ha0 [Ha1 [Hs0 [Hs1 _]]]].
    eapply total_bind;
      [apply (total_random rng rng_range (fun _ => True)); auto|].
    intros r _. destruct (Qlt_bool r 0.6).
    + eapply total_bind;
        [apply (total_random rng rng_range
                  (fun r => (0 <= r)%Q /\ (r < 1)%Q)); auto|].
      intros r2 [Hr0 Hr1]. cbv zeta.
      assert (Hlead : 0 <= int (avg_lead_time_wk sup
                                + (r2 - 0.5) * lead_time_std sup * 2) <= 6).
      { assert (Hp : (0 <= r2 * lead_time_std sup)%Q)
          by (apply Qmult_le_0_compat; lra).
        assert (Hq : (r2 * lead_time_std sup <= 1 * lead_time_std sup)%Q)
          by (apply Qmult_le_compat_r; lra).
        assert (H0 : (0 <= avg_lead_time_wk sup
                           + (r2 - 0.5) * lead_time_std sup * 2)%Q) by lra.
        split.
        - apply int_lower; [lia|exact H0].
        - apply (int_upper 7); [exact H0|].
          change (inject_Z 7) with 7%Q. lra. }
      destruct (w + Z.max 1 (int (avg_lead_time_wk sup
                  + (r2 - 0.5) * lead_time_std sup * 2)) <=? weeks).
      * eapply total_bind;
          [apply (total_random rng rng_range (fun _ => True)); auto|].
        intros r3 _. apply total_ret. eexists. split; [reflexivity|].
        constructor; [|constructor]. cbn [week_arrival week_release]. lia.
      * apply total_ret. exists []. now rewrite app_nil_r.
    + apply total_ret. exists []. now rewrite app_nil_r.
  - intros df [rows [-> F]]. exact F.
Qed.

(** X10: when the deliveries are generated from the supplier table of the
    same run, every lead time (arrival minus release) is between 1 and 6
    weeks; with releases ending in week 98 no arrival passes week 104. *)
Theorem pipeline_lead_times (s : nat) :
  exists sdf s1 df s2,
    generate_suppliers_data rng s = Ok (sdf, s1) /\
    generate_deliveries_data rng sdf s1 = Ok (df, s2) /\
    Forall (fun r => 1 <= week_arrival r - week_release r <= 6) df.
Proof.
  destruct (suppliers_stats s) as [sdf [E1 [Hstats _]]].
  destruct (lead_time_rows sdf Hstats (15 + s)%nat) as [df [s2 [E2 F]]].
  exists sdf, (15 + s)%nat, df, s2. auto.
Qed.

End Deliveries.


Lemma deliveries_from_suppliers_witness :
  exists df s',
    generate_deliveries_data half_stream sample_suppliers 15%nat
    = Ok (df, s') /\
    Forall (delivery_from sample_suppliers) df /\
    (List.length df <= 98 * List.length sample_suppliers)%nat /\
    (sample_suppliers = [] -> df = []).
Proof.
  apply (deliveries_from_suppliers half_stream).
  intros n. split; vm_compute; [discriminate|reflexivity].
Defined.

Lemma deliveries_sorted_by_release_witness :
  exists df s',
    generate_deliveries_data half_stream sample_suppliers 15%nat
    = Ok (df, s') /\
    StronglySorted Z.le (map week_release df).
Proof.
  apply (deliveries_sorted_by_release half_stream).
  intros n. split; vm_compute; [discriminate|reflexivity].
Defined.

Lemma pipeline_lead_times_witness :
  exists sdf s1 df s2,
    generate_suppliers_data half_stream 0%nat = Ok (sdf, s1) /\
    generate_deliveries_data half_stream sdf s1 = Ok (df, s2) /\
    Forall (fun r => 1 <= week_arrival r - week_release r <= 6) df.
Proof.
  apply (pipeline_lead_times half_stream).
  intros n. split; vm_compute; [discriminate|reflexivity].
Defined.

(** * Further properties of the baseline calculator *)

(** ** When the calculator returns *)









(** ** The shape of the two tables *)

Lemma triples_NoDup : NoDup triples.
Proof.
  assert (H : forallb (fun k => Nat.eqb (count_key k triples) 1) triples
              = true) by (vm_compute; reflexivity).
  rewrite forallb_forall in H.
  assert (Hd : forall x y : key, {x = y} + {x <> y}).
  { intros x y. destruct (key_eqb x y) eqn:E.
    - left. now apply key_eqb_eq.
    - right. intros F. apply key_eqb_eq in F. congruence. }
  apply (NoDup_count_occ' Hd). intros k Hk.
  specialize (H k Hk). apply Nat.eqb_eq in H. rewrite <- H.
  unfold count_key. clear. induction triples as [|k' l IH]; [reflexivity|].
  simpl. destruct (Hd k' k) as [->|N].
  - assert (E : key_eqb k k = true) by now apply key_eqb_eq.
    rewrite E. simpl. now rewrite IH.
  - destruct (key_eqb k' k) eqn:E; [apply key_eqb_eq in E; contradiction|].
    exact IH.
Qed.

Lemma triples_length : List.length triples = 1000%nat.
Proof. vm_compute. reflexivity. Qed.

Lemma reported_keys adf (ks : list key) :
  (forall k, In k ks -> enough adf k = true -> current adf k <> []) ->
  map b_key (flat_map (fun k => fst (rows_of adf k)) ks)
  = filter (enough adf) ks /\
  Forall2 (paired_rows adf) (flat_map (fun k => fst (rows_of adf k)) ks)
    (flat_map (fun k => snd (rows_of adf k)) ks).
Proof.
  induction ks as [|k ks IH]; intros H; [split; [reflexivity|constructor]|].
  destruct IH as [IH1 IH2]; [intros k' Hk'; apply H; now right|].
  cbn [flat_map filter]. rewrite map_app, IH1. unfold rows_of at 1 2 4.
  destruct (enough adf k) eqn:E.
  - specialize (H k (or_introl eq_refl) E).
    destruct (current adf k) as [|a rest] eqn:C; [congruence|].
    cbn [fst snd map app]. rewrite baseline_of_key. split; [reflexivity|].
    constructor; [|exact IH2]. unfold paired_rows.
    rewrite baseline_of_key, performance_of_key, C.
    destruct k as [[w s] d]. repeat split.
  - cbn [fst snd map app]. split; [reflexivity|exact IH2].
Qed.

(** X13: in a run that returns, the baseline table lists exactly the
    loop triples with four or more prior observations, in loop order
    (week, then SKU, then DC), each once; so it has at most 1000 rows, and
    the performance table has the same number. *)
Theorem baseline_keys_in_loop_order (adf : list actual_row)
  (B : list baseline_row) (P : list performance_row) :
  calculate_baseline_forecast adf = Ok (B, P) ->
  map b_key B = filter (enough adf) triples /\
  NoDup (map b_key B) /\
  (List.length B <= 1000)%nat /\
  List.length P = List.length B.
Proof.
  intros H. pose proof (calculate_ok_current adf _ H) as Hc.
  destruct (calculate_rows adf B P H) as [HB HP].
  destruct (reported_keys adf triples Hc) as [Hk Hp].
  rewrite <- HB in Hk. rewrite <- HB, <- HP in Hp.
  split; [exact Hk|]. split; [|split].
  - rewrite Hk. apply NoDup_filter, triples_NoDup.
  - rewrite <- (length_map b_key), Hk, <- triples_length.
    apply filter_length_le.
  - symmetry. apply (Forall2_length_eq _ _ _ Hp).
Qed.

Lemma baseline_keys_in_loop_order_witness :
  map b_key (fst example_tables) = filter (enough example_actuals) triples /\
  NoDup (map b_key (fst example_tables)) /\
  (List.length (fst example_tables) <= 1000)%nat /\
  List.length (snd example_tables) = List.length (fst example_tables).
Proof.
  apply (baseline_keys_in_loop_order example_actuals).
  vm_compute. reflexivity.
Defined.

(** X14: in a run that returns, the i-th performance row belongs to the
    i-th baseline row: the same key, the festival flag of that week, and
    both errors computed against the stored actual from the unrounded
    mean and the unrounded festival-adjusted value, not from the stored
    integer forecasts. *)
Theorem tables_row_pairs (adf : list actual_row)
  (B : list baseline_row) (P : list performance_row) :
  calculate_baseline_forecast adf = Ok (B, P) ->
  Forall2 (paired_rows adf) B P.
Proof.
  intros H. pose proof (calculate_ok_current adf _ H) as Hc.
  destruct (calculate_rows adf B P H) as [HB HP].
  destruct (reported_keys adf triples Hc) as [_ Hp].
  now rewrite <- HB, <- HP in Hp.
Qed.

Lemma tables_row_pairs_witness :
  Forall2 (paired_rows example_actuals)
    (fst example_tables) (snd example_tables).
Proof.
  apply (tables_row_pairs example_actuals). vm_compute. reflexivity.
Defined.

(** ** The forecasts stay within the data *)







(** ** The rows the calculator reads *)

Lemma filter_filter_implied {X} (m rel : X -> bool) (l : list X) :
  (forall x, m x = true -> rel x = true) ->
  filter m (filter rel l) = filter m l.
Proof.
  intros H. induction l as [|x l IH]; [reflexivity|]. simpl.
  destruct (rel x) eqn:R; simpl.
  - destruct (m x); now rewrite IH.
  - destruct (m x) eqn:Mx; [apply H in Mx; congruence|exact IH].
Qed.

Lemma foldR_ext_in {X B} (f g : B -> X -> res B) (xs : list X) :
  (forall x acc, In x xs -> f acc x = g acc x) ->
  forall acc, foldR f xs acc = foldR g xs acc.
Proof.
  induction xs as [|x xs' IH]; intros H acc; [reflexivity|]. simpl.
  rewrite (H x acc (or_introl eq_refl)).
  destruct (g acc x); simpl; [|reflexivity].
  apply IH. intros y acc' Hy. apply H. now right.
Qed.

Lemma existsb_eqb_in (x : string) (l : list string) :
  In x l -> existsb (String.eqb x) l = true.
Proof.
  intros H. apply existsb_exists. exists x. split; [exact H|].
  apply String.eqb_refl.
Qed.

Lemma masks_relevant (w : Z) (s d : string) (r : actual_row) :
  5 <= w <= 104 -> In s skus -> In d dcs ->
  (prior_mask w s d r = true -> relevant r = true) /\
  (current_mask w s d r = true -> relevant r = true).
Proof.
  intros Hw Hs Hd. unfold prior_mask, current_mask, relevant. split.
  - rewrite !andb_true_iff. intros [[[H1 H2] H3] H4].
    apply Z.leb_le in H1. apply Z.ltb_lt in H2.
    apply String.eqb_eq in H3, H4. rewrite H3, H4.
    repeat split; try (apply Z.leb_le; lia); now apply existsb_eqb_in.
  - rewrite !andb_true_iff. intros [[H1 H3] H4].
    apply Z.eqb_eq in H1. apply String.eqb_eq in H3, H4. rewrite H3, H4.
    repeat split; try (apply Z.leb_le; lia); now apply existsb_eqb_in.
Qed.

(** X16: the calculator reads only the rows of weeks 1 to 104 that carry
    a configured SKU and a configured DC: dropping every other row from
    the actuals table changes neither the result nor the failure. *)
Theorem calculator_reads_relevant_rows (adf : list actual_row) :
  calculate_baseline_forecast (filter relevant adf)
  = calculate_baseline_forecast adf.
Proof.
  unfold calculate_baseline_forecast.
  apply foldR_ext_in. intros w acc Hw. apply in_range in Hw.
  unfold weeks in Hw.
  apply foldR_ext_in. intros s acc1 Hs.
  apply foldR_ext_in. intros d acc2 Hd.
  destruct acc2 as [B P]. unfold baseline_body, select_qty.
  assert (Hm : forall r, (prior_mask w s d r = true -> relevant r = true) /\
                         (current_mask w s d r = true -> relevant r = true))
    by (intros r; apply masks_relevant; auto; lia).
  rewrite !filter_filter_implied; [reflexivity| |];
    intros r; now apply Hm.
Qed.

Lemma calculator_reads_relevant_rows_witness :
  filter relevant noisy_actuals = example_actuals /\
  calculate_baseline_forecast noisy_actuals = Ok example_tables.
Proof.
  split; [vm_compute; reflexivity|].
  rewrite <- (calculator_reads_relevant_rows noisy_actuals).
  vm_compute. reflexivity.
Defined.

(** * The whole pipeline *)





Section WholePipeline.

Variable rng : nat -> Q.
Hypothesis rng_range : forall n, (0 <= rng n)%Q /\ (rng n < 1)%Q.
Variable randint : Z -> Z -> M Z.
Hypothesis randint_range :
  forall lo hi, lo < hi -> total (randint lo hi) (fun v => lo <= v < hi).
Variable clock : string -> Q * Q.
Variable np_pi : Q.
Variable np_sin : Q -> Q.




End WholePipeline.

